(** * KKM: address translation, trap emulation, payload entry and IDT setup

    A shallow embedding of the C code of the Kontain kernel module
    (kkm_kontext.c, kkm_kontainer.c, kkm_idt.c).

    Conventions.
    - [uint64_t] and [uint32_t] values are [Z] with the wrap-around
      written out ([wrap64], [wrap32]); narrower fields are masked as the
      code masks them.
    - [int] return codes are [Z]; errno values are the Linux ones.
    - Pointers are [Z] addresses, [NULL] is [0].
    - C arrays are lists read with [!!] and written with [<[ i := x ]>]. *)

From Stdlib Require Import ZArith Lia Bool List.
From stdpp Require Import base option list gmap.

Local Open Scope Z_scope.

(** ** Machine integers *)

Definition wrap64 (x : Z) : Z := x mod 2 ^ 64.
Definition wrap32 (x : Z) : Z := x mod 2 ^ 32.

(** [~x] on a 64-bit unsigned operand. *)
Definition not64 (x : Z) : Z := Z.lxor x (2 ^ 64 - 1).

(** Little-endian byte image of a 32-bit store. *)
Definition le_bytes32 (v : Z) : list Z :=
  [ Z.land v 255;
    Z.land (Z.shiftr v 8) 255;
    Z.land (Z.shiftr v 16) 255;
    Z.land (Z.shiftr v 24) 255 ].

Fixpoint le_combine (bs : list Z) : Z :=
  match bs with
  | [] => 0
  | b :: tl => Z.lor b (Z.shiftl (le_combine tl) 8)
  end.

(** ** Constants *)

(** Linux errno values. *)
Definition EFAULT : Z := 14.
Definition EOPNOTSUPP : Z := 95.
Definition EINVAL : Z := 22.

(** Linux x86 trap numbers (asm/traps.h). *)
Definition X86_TRAP_BP : Z := 3.
Definition X86_TRAP_OF : Z := 4.
Definition X86_TRAP_DF : Z := 8.
Definition X86_TRAP_TS : Z := 10.
Definition X86_TRAP_NP : Z := 11.
Definition X86_TRAP_SS : Z := 12.
Definition X86_TRAP_GP : Z := 13.
Definition X86_TRAP_PF : Z := 14.
Definition X86_TRAP_AC : Z := 17.
Definition X86_TRAP_SE : Z := 30.

(** Page-fault error code bits. *)
Definition X86_PF_WRITE : Z := 2.
Definition X86_PF_USER : Z := 4.

(** RFLAGS bits. *)
Definition X86_EFLAGS_IF : Z := 0x200.
Definition X86_EFLAGS_IOPL : Z := 0x3000.
Definition X86_EFLAGS_RF : Z := 0x10000.

(** Segment selectors of x86-64 Linux (asm/segment.h). *)
Definition __KERNEL_CS : Z := 0x10.
Definition __KERNEL_DS : Z := 0x18.
Definition __USER_DS : Z := 0x2b.
Definition __USER_CS : Z := 0x33.

Definition GATE_INTERRUPT : Z := 0xE.
Definition NR_VECTORS : nat := 256.
Definition IDT_ENTRIES : nat := 256.
Definition PAGE_SIZE : Z := 4096.

(** kkm_kontext.c, lines 522-549. *)
Definition KKM_MIB : Z := 0x100000.
Definition KKM_GIB : Z := 0x40000000.
Definition KKM_TIB : Z := 0x10000000000.

Definition KKM_GUEST_MEM_START_VA : Z := 2 * KKM_MIB.
Definition KKM_GUEST_MAX_PHYS_MEM : Z := 512 * KKM_GIB.
Definition KKM_GUEST_MEM_TOP_VA : Z := 128 * KKM_TIB - 2 * KKM_MIB.
Definition KKM_GUEST_VA_OFFSET : Z :=
  KKM_GUEST_MEM_TOP_VA - (KKM_GUEST_MAX_PHYS_MEM - 2 * KKM_MIB).
Definition KKM_KM_USER_MEM_BASE : Z := 0x100000000000.
Definition KKM_KM_RSRV_VDSOSLOT : nat := 41.
Definition KKM_GUEST_VVAR_VDSO_BASE_VA : Z := KKM_GUEST_MEM_TOP_VA + 1 * KKM_MIB.

(** ** Data model *)

(** A memory slot of the kontainer: [mem_slot->used],
    [mem_slot->mr.memory_size], [mem_slot->mr.userspace_addr]. *)
Record kkm_memory_region := mk_memory_region {
  memory_size : Z;
  userspace_addr : Z
}.

Record kkm_mem_slot := mk_mem_slot {
  used : bool;
  mr : kkm_memory_region
}.

(** An interrupt gate ([gate_desc] / [struct gate_struct]). *)
Record gate_struct := mk_gate {
  offset_low : Z;
  segment : Z;
  bits_ist : Z;
  bits_zero : Z;
  bits_type : Z;
  bits_dpl : Z;
  bits_p : Z;
  offset_middle : Z;
  offset_high : Z;
  reserved : Z
}.

(** [struct kkm]: the kontainer.  [idt_table] is the content of the page
    [idt] points to, seen as an array of gates. *)
Record kkm := mk_kkm {
  guest_kernel_page : Z;
  guest_kernel : Z;
  guest_kernel_pa : Z;
  guest_payload_page : Z;
  guest_payload : Z;
  guest_payload_pa : Z;
  idt_page : Z;
  idt : Z;
  idt_table : list gate_struct;
  mem_slot : list kkm_mem_slot
}.

(** ** Address translator (kkm_kontext.c, lines 551-592)

    The translator reads nothing of the kontext but
    [kkm_kontext->kkm->mem_slot], so it takes the kontainer; it returns
    [ret_val] and the final content of [*monitor_va].  [mem_slot] is a
    fixed-size array in C: a table without entry 41 has no counterpart
    there and is given the failing answer. *)
Definition kkm_guest_va_to_monitor_va (k : kkm) (guest_va : Z) : bool * Z :=
  if (KKM_GUEST_MEM_START_VA <=? guest_va) && (guest_va <? KKM_GUEST_MAX_PHYS_MEM)
  then (true, wrap64 (KKM_KM_USER_MEM_BASE + guest_va))
  else if (KKM_GUEST_VA_OFFSET <=? guest_va) && (guest_va <? KKM_GUEST_MEM_TOP_VA)
  then (true, wrap64 (KKM_KM_USER_MEM_BASE + wrap64 (guest_va - KKM_GUEST_VA_OFFSET)))
  else
    match mem_slot k !! KKM_KM_RSRV_VDSOSLOT with
    | Some slot =>
        if used slot
           && (KKM_GUEST_VVAR_VDSO_BASE_VA <=? guest_va)
           && (guest_va <? wrap64 (KKM_GUEST_VVAR_VDSO_BASE_VA + memory_size (mr slot)))
        then (true, wrap64 (wrap64 (guest_va - KKM_GUEST_VVAR_VDSO_BASE_VA)
                            + userspace_addr (mr slot)))
        else (false, 0)
    | None => (false, 0)
    end.

(** The three recognized ranges, as the specification words them. *)
Definition in_low_window (a : Z) : Prop :=
  2 * KKM_MIB <= a < 512 * KKM_GIB.

Definition in_high_window (a : Z) : Prop :=
  KKM_GUEST_VA_OFFSET <= a < 128 * KKM_TIB - 2 * KKM_MIB.

Definition in_vdso_range (k : kkm) (a : Z) : Prop :=
  exists slot, mem_slot k !! KKM_KM_RSRV_VDSOSLOT = Some slot
    /\ used slot = true
    /\ KKM_GUEST_VVAR_VDSO_BASE_VA <= a
       < KKM_GUEST_VVAR_VDSO_BASE_VA + memory_size (mr slot).

(** A kontainer whose only populated slot is the reserved VDSO slot. *)
Definition kkm_with_vdso (u : bool) (b s : Z) : kkm :=
  mk_kkm 0 0 0 0 0 0 0 0 []
    (replicate 41 (mk_mem_slot false (mk_memory_region 0 0))
       ++ [mk_mem_slot u (mk_memory_region s b)]).

(** ** Guest area, run record and kontext *)

(** [ga->regs]: the general-purpose registers the modelled code reads or
    writes. *)
Record kkm_regs := mk_regs {
  rax : Z;
  rdx : Z;
  rip : Z;
  rflags : Z
}.

(** [ga->sregs]: [cr2] and [fs.base]. *)
Record kkm_sregs := mk_sregs {
  cr2 : Z;
  fs_base : Z
}.

(** [ga->trap_info]: what the trap entry code captured. *)
Record kkm_trap_info := mk_trap_info {
  trap_ss : Z;
  trap_rsp : Z;
  trap_rflags : Z;
  trap_cs : Z;
  trap_rip : Z;
  trap_error : Z
}.

Record desc_ptr := mk_desc_ptr {
  desc_size : Z;
  desc_address : Z
}.

(** [struct kkm_guest_area]. *)
Record kkm_guest_area := mk_ga {
  regs : kkm_regs;
  sregs : kkm_sregs;
  trap_info : kkm_trap_info;
  kkm_intr_no : Z;
  instruction_decode : list Z;
  guest_payload_cs : Z;
  guest_payload_ss : Z;
  guest_stack_variable_address : Z;
  native_save_tss_sp0 : Z;
  native_save_tss_sp1 : Z;
  native_save_tss_sp2 : Z;
  native_idt_desc : desc_ptr;
  guest_idt_desc : desc_ptr;
  ga_kkm_kontext : Z;
  guest_area_beg : Z
}.

Inductive kkm_exit_reason := KKM_EXIT_UNKNOWN | KKM_EXIT_IO.
Inductive kkm_io_direction := KKM_EXIT_IO_IN | KKM_EXIT_IO_OUT.

(** [kkm_run->io]. *)
Record kkm_run_io := mk_run_io {
  io_direction : kkm_io_direction;
  io_size : Z;
  io_port : Z;
  io_count : Z;
  io_data_offset : Z
}.

(** [struct kkm_run], the exit record shared with the monitor. *)
Record kkm_run := mk_run {
  exit_reason : kkm_exit_reason;
  io : kkm_run_io
}.

(** [struct kkm_kontext].  [ga] is the content of the memory
    [guest_area] points to, [mmap_area0] the run record at
    [mmap_area[0].kvaddr] and [mmap_area1] the bytes of the data page at
    [mmap_area[1].kvaddr]. *)
Record kkm_kontext := mk_kontext {
  kontext_kkm : kkm;
  guest_area_page : Z;
  guest_area : Z;
  guest_area_page0_pa : Z;
  guest_area_page1_pa : Z;
  ga : kkm_guest_area;
  mmap_area0 : kkm_run;
  mmap_area1 : list Z
}.

(** Monitor (user) memory: one cell per mapped byte. *)
Record ucell := mk_ucell {
  cell_val : Z;
  cell_writable : bool
}.

(** One call of [copy_from_user] / [copy_to_user] on a single byte. *)
Inductive probe :=
  | ProbeRead (addr : Z)
  | ProbeWrite (addr : Z) (b : Z).

(** What the trap handlers run on: the kontext, the monitor memory and
    the log of user-memory probes issued so far. *)
Record kstate := mk_kstate {
  st_kontext : kkm_kontext;
  st_umem : gmap Z ucell;
  st_probes : list probe
}.

(** *** Field updates *)

Definition set_rip (v : Z) (r : kkm_regs) : kkm_regs :=
  mk_regs (rax r) (rdx r) v (rflags r).

Definition set_rflags (v : Z) (r : kkm_regs) : kkm_regs :=
  mk_regs (rax r) (rdx r) (rip r) v.

Definition ga_set_regs (r : kkm_regs) (g : kkm_guest_area) : kkm_guest_area :=
  mk_ga r (sregs g) (trap_info g) (kkm_intr_no g) (instruction_decode g)
    (guest_payload_cs g) (guest_payload_ss g) (guest_stack_variable_address g)
    (native_save_tss_sp0 g) (native_save_tss_sp1 g) (native_save_tss_sp2 g)
    (native_idt_desc g) (guest_idt_desc g) (ga_kkm_kontext g) (guest_area_beg g).

Definition ga_set_intr_no (n : Z) (g : kkm_guest_area) : kkm_guest_area :=
  mk_ga (regs g) (sregs g) (trap_info g) n (instruction_decode g)
    (guest_payload_cs g) (guest_payload_ss g) (guest_stack_variable_address g)
    (native_save_tss_sp0 g) (native_save_tss_sp1 g) (native_save_tss_sp2 g)
    (native_idt_desc g) (guest_idt_desc g) (ga_kkm_kontext g) (guest_area_beg g).

Definition ga_set_instruction_decode (d : list Z) (g : kkm_guest_area)
  : kkm_guest_area :=
  mk_ga (regs g) (sregs g) (trap_info g) (kkm_intr_no g) d
    (guest_payload_cs g) (guest_payload_ss g) (guest_stack_variable_address g)
    (native_save_tss_sp0 g) (native_save_tss_sp1 g) (native_save_tss_sp2 g)
    (native_idt_desc g) (guest_idt_desc g) (ga_kkm_kontext g) (guest_area_beg g).

Definition ga_set_payload_selectors (cs ss : Z) (g : kkm_guest_area)
  : kkm_guest_area :=
  mk_ga (regs g) (sregs g) (trap_info g) (kkm_intr_no g) (instruction_decode g)
    cs ss (guest_stack_variable_address g)
    (native_save_tss_sp0 g) (native_save_tss_sp1 g) (native_save_tss_sp2 g)
    (native_idt_desc g) (guest_idt_desc g) (ga_kkm_kontext g) (guest_area_beg g).

Definition ga_set_stack_variable_address (a : Z) (g : kkm_guest_area)
  : kkm_guest_area :=
  mk_ga (regs g) (sregs g) (trap_info g) (kkm_intr_no g) (instruction_decode g)
    (guest_payload_cs g) (guest_payload_ss g) a
    (native_save_tss_sp0 g) (native_save_tss_sp1 g) (native_save_tss_sp2 g)
    (native_idt_desc g) (guest_idt_desc g) (ga_kkm_kontext g) (guest_area_beg g).

Definition ga_set_native_tss (sp0 sp1 sp2 : Z) (g : kkm_guest_area)
  : kkm_guest_area :=
  mk_ga (regs g) (sregs g) (trap_info g) (kkm_intr_no g) (instruction_decode g)
    (guest_payload_cs g) (guest_payload_ss g) (guest_stack_variable_address g)
    sp0 sp1 sp2
    (native_idt_desc g) (guest_idt_desc g) (ga_kkm_kontext g) (guest_area_beg g).

Definition ga_set_self (kontext_addr beg : Z) (g : kkm_guest_area)
  : kkm_guest_area :=
  mk_ga (regs g) (sregs g) (trap_info g) (kkm_intr_no g) (instruction_decode g)
    (guest_payload_cs g) (guest_payload_ss g) (guest_stack_variable_address g)
    (native_save_tss_sp0 g) (native_save_tss_sp1 g) (native_save_tss_sp2 g)
    (native_idt_desc g) (guest_idt_desc g) kontext_addr beg.

Definition kontext_set_ga (g : kkm_guest_area) (k : kkm_kontext) : kkm_kontext :=
  mk_kontext (kontext_kkm k) (guest_area_page k) (guest_area k)
    (guest_area_page0_pa k) (guest_area_page1_pa k) g
    (mmap_area0 k) (mmap_area1 k).

Definition kontext_set_run (r : kkm_run) (k : kkm_kontext) : kkm_kontext :=
  mk_kontext (kontext_kkm k) (guest_area_page k) (guest_area k)
    (guest_area_page0_pa k) (guest_area_page1_pa k) (ga k)
    r (mmap_area1 k).

Definition kontext_set_data (d : list Z) (k : kkm_kontext) : kkm_kontext :=
  mk_kontext (kontext_kkm k) (guest_area_page k) (guest_area k)
    (guest_area_page0_pa k) (guest_area_page1_pa k) (ga k)
    (mmap_area0 k) d.

Definition st_set_kontext (k : kkm_kontext) (st : kstate) : kstate :=
  mk_kstate k (st_umem st) (st_probes st).

(** *** User-memory access *)

(** [copy_from_user(ga->instruction_decode, (void * )addr, sizeof(uint8_t))]:
    the number of bytes left uncopied ([0] on success) and the state
    after.  The fetched byte takes the place of [instruction_decode[0]];
    the copy fails when the monitor has nothing mapped at [addr]. *)
Definition copy_from_user_byte (addr : Z) (st : kstate) : Z * kstate :=
  let log := st_probes st ++ [ProbeRead addr] in
  match st_umem st !! addr with
  | Some c =>
      let k := st_kontext st in
      let g := ga k in
      let d := cell_val c :: tail (instruction_decode g) in
      (0, mk_kstate (kontext_set_ga (ga_set_instruction_decode d g) k)
            (st_umem st) log)
  | None => (1, mk_kstate (st_kontext st) (st_umem st) log)
  end.

(** [copy_to_user((void * )addr, ga->instruction_decode, sizeof(uint8_t))]:
    the copy fails when [addr] is unmapped or not writable. *)
Definition copy_to_user_byte (addr : Z) (st : kstate) : Z * kstate :=
  let b := hd 0 (instruction_decode (ga (st_kontext st))) in
  let log := st_probes st ++ [ProbeWrite addr b] in
  match st_umem st !! addr with
  | Some c =>
      if cell_writable c
      then (0, mk_kstate (st_kontext st)
                 (<[addr := mk_ucell b true]> (st_umem st)) log)
      else (1, mk_kstate (st_kontext st) (st_umem st) log)
  | None => (1, mk_kstate (st_kontext st) (st_umem st) log)
  end.

(** [data_address[0] = v] for [uint32_t *data_address] at the start of the
    data page: the four bytes of [v], low byte first, take the place of
    the first four bytes of the page. *)
Definition store32_at0 (v : Z) (page : list Z) : list Z :=
  le_bytes32 (wrap32 v) ++ drop 4 page.

(** ** Trap emulators and dispatcher (kkm_kontext.c, lines 393-516) *)

Section Emulators.

(** Macros of kkm headers that are not part of the sources at hand. *)
Variable KKM_OUT_OPCODE : Z.
Variable KKM_KONTEXT_FAULT_PROCESS_DONE : Z.

Definition kkm_process_general_protection (st : kstate) : Z * kstate :=
  let k := st_kontext st in
  match kkm_guest_va_to_monitor_va (kontext_kkm k) (trap_rip (trap_info (ga k))) with
  | (false, _) => (- EFAULT, st)
  | (true, monitor_fault_address) =>
      match copy_from_user_byte monitor_fault_address st with
      | (0, st1) =>
          let k1 := st_kontext st1 in
          let g1 := ga k1 in
          if hd 0 (instruction_decode g1) =? KKM_OUT_OPCODE
          then
            let run :=
              mk_run KKM_EXIT_IO
                (mk_run_io KKM_EXIT_IO_OUT 4
                   (Z.land (rdx (regs g1)) 0xFFFF) 1 PAGE_SIZE) in
            let data := store32_at0 (rax (regs g1)) (mmap_area1 k1) in
            let g2 := ga_set_regs (set_rip (wrap64 (rip (regs g1) + 1)) (regs g1)) g1 in
            (0, st_set_kontext
                  (kontext_set_ga g2 (kontext_set_data data (kontext_set_run run k1)))
                  st1)
          else (0, st1)
      | (_, st1) => (- EFAULT, st1)
      end
  end.

Definition kkm_process_page_fault (st : kstate) : Z * kstate :=
  let k := st_kontext st in
  let error_code := trap_error (trap_info (ga k)) in
  match kkm_guest_va_to_monitor_va (kontext_kkm k) (cr2 (sregs (ga k))) with
  | (false, _) => (- EFAULT, st)
  | (true, monitor_fault_address) =>
      if Z.land error_code X86_PF_USER =? X86_PF_USER
      then
        match copy_from_user_byte monitor_fault_address st with
        | (0, st1) =>
            if Z.land error_code X86_PF_WRITE =? X86_PF_WRITE
            then
              match copy_to_user_byte monitor_fault_address st1 with
              | (0, st2) => (KKM_KONTEXT_FAULT_PROCESS_DONE, st2)
              | (_, st2) => (- EFAULT, st2)
              end
            else (KKM_KONTEXT_FAULT_PROCESS_DONE, st1)
        | (_, st1) => (- EFAULT, st1)
        end
      else (0, st)
  end.

Definition kkm_process_intr (st : kstate) : Z * kstate :=
  let k := st_kontext st in
  let run := mk_run KKM_EXIT_UNKNOWN (io (mmap_area0 k)) in
  let st1 := st_set_kontext (kontext_set_run run k) st in
  let n := kkm_intr_no (ga k) in
  if n =? X86_TRAP_GP then kkm_process_general_protection st1
  else if n =? X86_TRAP_PF then kkm_process_page_fault st1
  else (- EOPNOTSUPP, st1).

(** The guest-area part of [kkm_switch_to_host_kernel] (lines 308-309):
    the saved [rip] and [rflags] are overwritten with the trap-time
    values. *)
Definition kkm_switch_to_host_kernel (st : kstate) : kstate :=
  let k := st_kontext st in
  let g := ga k in
  let r := set_rflags (trap_rflags (trap_info g))
             (set_rip (trap_rip (trap_info g)) (regs g)) in
  st_set_kontext (kontext_set_ga (ga_set_regs r g) k) st.

(** Line 171: [ga->kkm_intr_no = -1] before the guest is entered. *)
Definition clear_intr_no (st : kstate) : kstate :=
  let k := st_kontext st in
  st_set_kontext (kontext_set_ga (ga_set_intr_no (wrap64 (-1)) (ga k)) k) st.

(** What running the guest until its next trap leaves in the guest area
    ([kkm_switch_to_gk_asm] up to the trap entry code): supplied from
    outside. *)
Variable guest_run : kstate -> kstate.

(** The re-entry loop of [kkm_kontext_switch_kernel] (lines 108-193), as
    far as the guest area and the run record go.  [fuel] bounds the number
    of guest entries; [None] means the bound was reached while the guest
    was still being resumed. *)
Fixpoint kkm_kontext_switch_kernel (fuel : nat) (st : kstate)
  : option (Z * kstate) :=
  match fuel with
  | O => None
  | S fuel' =>
      let st1 := clear_intr_no st in
      let st2 := kkm_switch_to_host_kernel (guest_run st1) in
      let (ret_val, st3) := kkm_process_intr st2 in
      if ret_val =? KKM_KONTEXT_FAULT_PROCESS_DONE
      then kkm_kontext_switch_kernel fuel' st3
      else Some (ret_val, st3)
  end.

End Emulators.

(** ** Payload entry (kkm_kontext.c, lines 200-286) *)

(** The processor state [kkm_guest_kernel_start_payload] writes: data
    segment selectors, two MSRs, the privileged stack pointers of the TSS
    and the IDT register. *)
Record cpu_state := mk_cpu {
  seg_ds : Z;
  seg_es : Z;
  seg_fs : Z;
  msr_fs_base : Z;
  msr_lstar : Z;
  tss_sp0 : Z;
  tss_sp1 : Z;
  tss_sp2 : Z;
  idtr : desc_ptr
}.

(** Addresses the function takes from the linker and from its own frame. *)
Record payload_symbols := mk_payload_symbols {
  kkm_syscall_entry_asm : Z;
  kkm_intr_entry_0 : Z;
  KKM_IDT_CODE_START_VA : Z;
  addr_of_cpu_variable : Z;
  addr_of_redzone_bottom : Z
}.

(** Lines 239-250: the flag fix-up, statement by statement.  The body of
    the first [if] holds nothing but a comment. *)
Definition payload_rflags (f0 : Z) : Z :=
  let f1 := Z.land f0 (not64 X86_EFLAGS_IF) in
  let f2 := if Z.land f1 X86_EFLAGS_IOPL =? 0
            then f1
            else Z.land f1 (not64 X86_EFLAGS_IOPL) in
  let f3 := if Z.land f2 X86_EFLAGS_RF =? 0
            then Z.lor f2 X86_EFLAGS_RF
            else f2 in
  f3.

(** The guest area as it stands when the redzone is verified (line 257). *)
Definition payload_prepare (sym : payload_symbols) (g : kkm_guest_area)
  : kkm_guest_area :=
  let g1 := ga_set_stack_variable_address (addr_of_cpu_variable sym) g in
  let g2 := ga_set_payload_selectors __USER_CS __USER_DS g1 in
  ga_set_regs (set_rflags (payload_rflags (rflags (regs g2))) (regs g2)) g2.

(** [kkm_guest_kernel_start_payload].  [g] is the guest area found through
    [kkm_mmu_get_cur_cpu_guest_va()] (the pointer argument is overwritten
    on entry).  [verify_redzone] stands for
    [kkm_verify_guest_area_redzone]: [false] when it stops the entry.  The
    result is the guest area and processor state handed to
    [kkm_switch_to_gp_asm], or [None] when the redzone check stopped it. *)
Definition kkm_guest_kernel_start_payload
    (verify_redzone : kkm_guest_area -> bool) (sym : payload_symbols)
    (g : kkm_guest_area) (cpu : cpu_state)
  : option (kkm_guest_area * cpu_state) :=
  let syscall_entry_addr :=
    wrap64 (wrap64 (kkm_syscall_entry_asm sym - kkm_intr_entry_0 sym)
            + KKM_IDT_CODE_START_VA sym) in
  let g3 := payload_prepare sym g in
  if verify_redzone g3
  then
    let g4 := ga_set_native_tss (tss_sp0 cpu) (tss_sp1 cpu) (tss_sp2 cpu) g3 in
    let cpu' :=
      mk_cpu 0 0 0 (fs_base (sregs g)) syscall_entry_addr
        (addr_of_redzone_bottom sym) (tss_sp1 cpu) (tss_sp2 cpu)
        (guest_idt_desc g4) in
    Some (g4, cpu')
  else None.

(** ** Page allocation and one-time setup *)

(** The kernel pages currently allocated, by virtual address. *)
Definition free_page (va : Z) (heap : gset Z) : gset Z := heap ∖ {[ va ]}.

(** The answer of the page allocator to one request: a negative errno, or
    the [struct page] pointer with the virtual and physical address of the
    first page.  [nulls_page] tells whether a failing call stores [NULL]
    in the page out-parameter or leaves it alone. *)
Inductive alloc_outcome :=
  | AllocFail (errno : positive) (nulls_page : bool)
  | AllocOk (page va pa : Z).

(** The three out-parameters of an allocation call. *)
Record page_slot := mk_page_slot {
  slot_page : Z;
  slot_va : Z;
  slot_pa : Z
}.

Fixpoint page_range (va : Z) (n : nat) : gset Z :=
  match n with
  | O => ∅
  | S n' => {[ va ]} ∪ page_range (va + PAGE_SIZE) n'
  end.

(** Modelled from the spec: [kkm_mm_allocate_pages] of kkm_mm.c, which is
    not among the sources ("page allocation with resulting
    host-kernel-virtual and physical addresses").  On success the
    out-parameters receive the page pointer, the virtual address and, when
    [want_pa] (a non-NULL third pointer), the physical address; on failure
    the error is returned, nothing is allocated, the address
    out-parameters are left as they were and the page out-parameter is
    [NULL] or left as it was. *)
Definition kkm_mm_allocate_pages (o : alloc_outcome) (want_pa : bool) (n : nat)
    (out : page_slot) (heap : gset Z) : Z * page_slot * gset Z :=
  match o with
  | AllocFail e nulls_page =>
      (Z.neg e,
       mk_page_slot (if nulls_page then 0 else slot_page out)
         (slot_va out) (slot_pa out),
       heap)
  | AllocOk page va pa =>
      (0, mk_page_slot page va (if want_pa then pa else slot_pa out),
       heap ∪ page_range va n)
  end.

(** Modelled from the spec: [kkm_mm_allocate_page], the one-page case. *)
Definition kkm_mm_allocate_page (o : alloc_outcome) (want_pa : bool)
    (out : page_slot) (heap : gset Z) : Z * page_slot * gset Z :=
  kkm_mm_allocate_pages o want_pa 1 out heap.

(** An outcome the allocator can really give on [heap]: a success names
    non-NULL pointers and [n] pages that were not allocated before. *)
Definition alloc_fresh (o : alloc_outcome) (n : nat) (heap : gset Z) : Prop :=
  match o with
  | AllocFail _ _ => True
  | AllocOk page va pa => page <> 0 /\ va <> 0 /\ page_range va n ## heap
  end.

(** *** Kontainer (kkm_kontainer.c) *)

Definition kkm_set_guest_kernel (s : page_slot) (k : kkm) : kkm :=
  mk_kkm (slot_page s) (slot_va s) (slot_pa s)
    (guest_payload_page k) (guest_payload k) (guest_payload_pa k)
    (idt_page k) (idt k) (idt_table k) (mem_slot k).

Definition kkm_set_guest_payload (s : page_slot) (k : kkm) : kkm :=
  mk_kkm (guest_kernel_page k) (guest_kernel k) (guest_kernel_pa k)
    (slot_page s) (slot_va s) (slot_pa s)
    (idt_page k) (idt k) (idt_table k) (mem_slot k).

Definition kkm_set_idt (page va : Z) (k : kkm) : kkm :=
  mk_kkm (guest_kernel_page k) (guest_kernel k) (guest_kernel_pa k)
    (guest_payload_page k) (guest_payload k) (guest_payload_pa k)
    page va (idt_table k) (mem_slot k).

Definition kkm_set_idt_table (t : list gate_struct) (k : kkm) : kkm :=
  mk_kkm (guest_kernel_page k) (guest_kernel k) (guest_kernel_pa k)
    (guest_payload_page k) (guest_payload k) (guest_payload_pa k)
    (idt_page k) (idt k) t (mem_slot k).

(** [kkm_kontainer_cleanup], lines 92-109. *)
Definition kkm_kontainer_cleanup (k : kkm) (heap : gset Z) : kkm * gset Z :=
  let '(k1, h1) :=
    if guest_kernel_page k =? 0 then (k, heap)
    else (kkm_set_guest_kernel (mk_page_slot 0 0 (guest_kernel_pa k)) k,
          free_page (guest_kernel k) heap) in
  let '(k2, h2) :=
    if guest_payload_page k1 =? 0 then (k1, h1)
    else (kkm_set_guest_payload (mk_page_slot 0 0 (guest_payload_pa k1)) k1,
          free_page (guest_payload k1) h1) in
  if idt_page k2 =? 0 then (k2, h2)
  else (kkm_set_idt 0 0 k2, free_page (idt k2) h2).

(** One round of the loop of lines 69-83: every field of [gd[i]] but
    [reserved] is assigned. *)
Definition kontainer_gate (desc_addr : Z) (old : gate_struct) : gate_struct :=
  mk_gate (Z.land desc_addr 0xFFFF) __KERNEL_CS 0 0 GATE_INTERRUPT 0 1
    (Z.land (Z.shiftr desc_addr 16) 0xFFFF)
    (Z.land (Z.shiftr desc_addr 32) 0xFFFFFFFF)
    (reserved old).

Fixpoint kontainer_idt_loop (n i : nat) (desc_addr : Z) (gd : list gate_struct)
  : list gate_struct :=
  match n with
  | O => gd
  | S n' =>
      kontainer_idt_loop n' (S i) desc_addr
        (alter (kontainer_gate desc_addr) i gd)
  end.

(** [kkm_kontainer_init], lines 23-90.  [o1], [o2], [o3] answer the three
    allocation requests in order, [page0] is the content of the page
    obtained for the IDT and [kkm_trap_entry] the address of the entry
    stub. *)
Definition kkm_kontainer_init (kkm_trap_entry : Z) (o1 o2 o3 : alloc_outcome)
    (page0 : list gate_struct) (k : kkm) (heap : gset Z) : Z * kkm * gset Z :=
  let finish (ret_val : Z) (k : kkm) (heap : gset Z) :=
    if ret_val =? 0 then (ret_val, k, heap)
    else let '(k', heap') := kkm_kontainer_cleanup k heap in (ret_val, k', heap') in
  let '(r1, s1, h1) :=
    kkm_mm_allocate_page o1 true
      (mk_page_slot (guest_kernel_page k) (guest_kernel k) (guest_kernel_pa k)) heap in
  let k1 := kkm_set_guest_kernel s1 k in
  if negb (r1 =? 0) then finish r1 k1 h1
  else
    let '(r2, s2, h2) :=
      kkm_mm_allocate_page o2 true
        (mk_page_slot (guest_payload_page k1) (guest_payload k1) (guest_payload_pa k1)) h1 in
    let k2 := kkm_set_guest_payload s2 k1 in
    if negb (r2 =? 0) then finish r2 k2 h2
    else
      let '(r3, s3, h3) :=
        kkm_mm_allocate_page o3 false
          (mk_page_slot (idt_page k2) (idt k2) 0) h2 in
      let k3 := kkm_set_idt (slot_page s3) (slot_va s3) k2 in
      if negb (r3 =? 0) then finish r3 k3 h3
      else
        let gd := kontainer_idt_loop IDT_ENTRIES 0 kkm_trap_entry page0 in
        finish r3 (kkm_set_idt_table gd k3) h3.

(** *** Kontext (kkm_kontext.c, lines 39-96) *)

Definition kontext_set_guest_area (page va : Z) (k : kkm_kontext) : kkm_kontext :=
  mk_kontext (kontext_kkm k) page va
    (guest_area_page0_pa k) (guest_area_page1_pa k) (ga k)
    (mmap_area0 k) (mmap_area1 k).

Definition kontext_set_guest_area_pa (pa0 pa1 : Z) (k : kkm_kontext) : kkm_kontext :=
  mk_kontext (kontext_kkm k) (guest_area_page k) (guest_area k)
    pa0 pa1 (ga k) (mmap_area0 k) (mmap_area1 k).

Definition KKM_GUEST_AREA_PAGES : nat := 2.

(** [kkm_kontext_cleanup], lines 89-96. *)
Definition kkm_kontext_cleanup (k : kkm_kontext) (heap : gset Z)
  : kkm_kontext * gset Z :=
  if guest_area_page k =? 0 then (k, heap)
  else (kontext_set_guest_area 0 0 k, free_page (guest_area k) heap).

(** [kkm_kontext_init].  [virt_to_phys] is the kernel's direct-map
    translation, [init_redzone] stands for [kkm_init_guest_area_redzone],
    [kontext_addr] is the address of the kontext itself and [ga0] the
    content of the pages obtained for the guest area. *)
Definition kkm_kontext_init (virt_to_phys : Z -> Z)
    (init_redzone : kkm_guest_area -> kkm_guest_area)
    (kontext_addr : Z) (o : alloc_outcome) (ga0 : kkm_guest_area)
    (k : kkm_kontext) (heap : gset Z) : Z * kkm_kontext * gset Z :=
  let '(ret_val, s, h1) :=
    kkm_mm_allocate_pages o false KKM_GUEST_AREA_PAGES
      (mk_page_slot (guest_area_page k) (guest_area k) 0) heap in
  let k1 := kontext_set_guest_area (slot_page s) (slot_va s) k in
  if negb (ret_val =? 0)
  then let '(k', h') := kkm_kontext_cleanup k1 h1 in (ret_val, k', h')
  else
    let k2 := kontext_set_guest_area_pa
                (virt_to_phys (guest_area k1))
                (virt_to_phys (wrap64 (guest_area k1 + PAGE_SIZE))) k1 in
    let g := ga_set_self kontext_addr (guest_area k2) (init_redzone ga0) in
    (ret_val, kontext_set_ga g k2, h1).

(** ** Guest interrupt-descriptor table (kkm_idt.c, lines 77-289) *)

Module Idt.

Record kkm_mmu_page_info := mk_page_info {
  page : Z;
  va : Z;
  pa : Z
}.

(** [struct kkm_idt_entry]; [gates] is the content of the memory at
    [idt.va], seen as [struct gate_struct] array. *)
Record kkm_idt_entry := mk_idt_entry {
  idt : kkm_mmu_page_info;
  idt_text_page0 : kkm_mmu_page_info;
  idt_text_page1 : kkm_mmu_page_info;
  kx_global : kkm_mmu_page_info;
  native_idt_desc : desc_ptr;
  guest_idt_desc : desc_ptr;
  gates : list gate_struct
}.

(** Entry stubs installed for the vectors with a non-standard prologue. *)
Record stubs := mk_stubs {
  kkm_intr_entry_double_fault : Z;
  kkm_intr_entry_invalid_TSS : Z;
  kkm_intr_entry_segment_np : Z;
  kkm_intr_entry_ss_fault : Z;
  kkm_intr_entry_general_protection : Z;
  kkm_intr_entry_page_fault : Z;
  kkm_intr_entry_alignment_check : Z;
  kkm_intr_entry_security_exception : Z
}.

(** What the function takes from the build and from the platform: the
    sizes of the two code blobs, the macros of kkm headers, the direct-map
    translation, the descriptor [kkm_store_idt] reports and the address
    [kkm_mmu_get_idt_va] returns. *)
Record env := mk_env {
  intr_code_len : Z;
  entry_code_len : Z;
  KKM_KX_INTR_CODE_SIZE : Z;
  KKM_KX_ENTRY_CODE_SIZE : Z;
  KKM_IDT_SIZE : Z;
  KKM_IDT_ALLOCATION_PAGES : nat;
  KKM_IDT_CODE_START_VA : Z;
  virt_to_phys : Z -> Z;
  stored_idt : desc_ptr;
  kkm_mmu_get_idt_va : Z;
  entry_stubs : stubs
}.

(** Lines 151-165. *)
Definition replace_non_standard_handlers (s : stubs) (ifp : list Z) : list Z :=
  let ifp := <[Z.to_nat X86_TRAP_DF := kkm_intr_entry_double_fault s]> ifp in
  let ifp := <[Z.to_nat X86_TRAP_TS := kkm_intr_entry_invalid_TSS s]> ifp in
  let ifp := <[Z.to_nat X86_TRAP_NP := kkm_intr_entry_segment_np s]> ifp in
  let ifp := <[Z.to_nat X86_TRAP_SS := kkm_intr_entry_ss_fault s]> ifp in
  let ifp := <[Z.to_nat X86_TRAP_GP := kkm_intr_entry_general_protection s]> ifp in
  let ifp := <[Z.to_nat X86_TRAP_PF := kkm_intr_entry_page_fault s]> ifp in
  let ifp := <[Z.to_nat X86_TRAP_AC := kkm_intr_entry_alignment_check s]> ifp in
  <[Z.to_nat X86_TRAP_SE := kkm_intr_entry_security_exception s]> ifp.

(** The body of the loop of lines 172-190 for vector [i]. *)
Definition gate_for (code_start : Z) (ifp : list Z) (i : nat) : gate_struct :=
  let intr_entry_addr :=
    wrap64 (wrap64 (code_start + default 0 (ifp !! i))
            - default 0 (ifp !! 0%nat)) in
  let dpl := if (Z.of_nat i =? X86_TRAP_BP) || (Z.of_nat i =? X86_TRAP_OF)
             then 3 else 0 in
  mk_gate (Z.land intr_entry_addr 0xFFFF) __KERNEL_CS 0 0 GATE_INTERRUPT dpl 1
    (Z.land (Z.shiftr intr_entry_addr 16) 0xFFFF)
    (Z.land (Z.shiftr intr_entry_addr 32) 0xFFFFFFFF)
    0.

(** [for (i = ...; i < NR_VECTORS; i++)] with [n] rounds left. *)
Fixpoint fill_gates (n i : nat) (code_start : Z) (ifp : list Z)
    (gs : list gate_struct) : list gate_struct :=
  match n with
  | O => gs
  | S n' =>
      fill_gates n' (S i) code_start ifp (<[i := gate_for code_start ifp i]> gs)
  end.

(** [kkm_idt_descr_init]: the return value, the IDT entry, the handler
    table and the heap after the call.  [o] answers the allocation
    request and [mem0] is the content of the memory obtained.  The copies
    into the text pages and the patching of the relocated code (lines
    201-285) write above [idt.va + KKM_IDT_SIZE] and are left out. *)
Definition kkm_idt_descr_init (e : env) (o : alloc_outcome)
    (mem0 : list gate_struct) (intr_function_pointers : list Z)
    (idt_entry : kkm_idt_entry) (heap : gset Z)
  : Z * kkm_idt_entry * list Z * gset Z :=
  if KKM_KX_INTR_CODE_SIZE e <=? intr_code_len e
  then (- EINVAL, idt_entry, intr_function_pointers, heap)
  else if KKM_KX_ENTRY_CODE_SIZE e <=? entry_code_len e
  then (- EINVAL, idt_entry, intr_function_pointers, heap)
  else
    let '(ret_val, s, heap1) :=
      kkm_mm_allocate_pages o true (KKM_IDT_ALLOCATION_PAGES e)
        (mk_page_slot (page (idt idt_entry)) (va (idt idt_entry))
           (pa (idt idt_entry))) heap in
    let idt1 := mk_page_info (slot_page s) (slot_va s) (slot_pa s) in
    if negb (ret_val =? 0)
    then (ret_val,
          mk_idt_entry idt1 (idt_text_page0 idt_entry) (idt_text_page1 idt_entry)
            (kx_global idt_entry) (native_idt_desc idt_entry)
            (guest_idt_desc idt_entry) (gates idt_entry),
          intr_function_pointers, heap1)
    else
      let text0_va := wrap64 (va idt1 + KKM_IDT_SIZE e) in
      let text0 := mk_page_info (page (idt_text_page0 idt_entry)) text0_va
                     (virt_to_phys e text0_va) in
      let text1_va := wrap64 (text0_va + PAGE_SIZE) in
      let text1 := mk_page_info (page (idt_text_page1 idt_entry)) text1_va
                     (virt_to_phys e text1_va) in
      let global_va := wrap64 (text1_va + PAGE_SIZE) in
      let global := mk_page_info (page (kx_global idt_entry)) global_va
                      (virt_to_phys e global_va) in
      let native := stored_idt e in
      let ifp := replace_non_standard_handlers (entry_stubs e)
                   intr_function_pointers in
      let gs := fill_gates NR_VECTORS 0 (KKM_IDT_CODE_START_VA e) ifp mem0 in
      let guest := mk_desc_ptr (desc_size native) (kkm_mmu_get_idt_va e) in
      (ret_val, mk_idt_entry idt1 text0 text1 global native guest gs, ifp, heap1).

(** A gate lets code running at privilege level 3 raise its vector with a
    software interrupt exactly when its descriptor privilege level is 3. *)
Definition user_raisable (g : gate_struct) : bool := 3 <=? bits_dpl g.

End Idt.

(** ** Conditions on the callers of the two initializers *)

(** The heap after the allocator gave outcome [o] to a request of [n]
    pages. *)
Definition heap_after (o : alloc_outcome) (n : nat) (heap : gset Z) : gset Z :=
  match o with
  | AllocFail _ _ => heap
  | AllocOk _ va _ => heap ∪ page_range va n
  end.

(** A kontainer / kontext that holds no page yet. *)
Definition kkm_fresh (k : kkm) : Prop :=
  guest_kernel_page k = 0 /\ guest_kernel k = 0
  /\ guest_payload_page k = 0 /\ guest_payload k = 0
  /\ idt_page k = 0 /\ idt k = 0.

Definition kontext_fresh (k : kkm_kontext) : Prop :=
  guest_area_page k = 0 /\ guest_area k = 0.

(** ** Concrete inputs used by the examples *)

Definition example_ga (vector error fault_address ip a d : Z) : kkm_guest_area :=
  mk_ga (mk_regs a d ip 0x246)
    (mk_sregs fault_address 0)
    (mk_trap_info __USER_DS 0x7fffffd00000 0x246 __USER_CS ip error)
    vector [0; 0; 0; 0; 0; 0; 0; 0; 0; 0; 0; 0; 0; 0; 0; 0]
    0 0 0 0 0 0 (mk_desc_ptr 0xfff 0) (mk_desc_ptr 0xfff 0) 0 0.

Definition example_run : kkm_run :=
  mk_run KKM_EXIT_UNKNOWN (mk_run_io KKM_EXIT_IO_IN 0 0 0 0).

Definition example_kontext (g : kkm_guest_area) : kkm_kontext :=
  mk_kontext (kkm_with_vdso false 0 0) 0 0 0 0 g example_run
    [0xaa; 0xbb; 0xcc; 0xdd; 0xee; 0xff].

Definition example_state (g : kkm_guest_area) (um : gmap Z ucell) : kstate :=
  mk_kstate (example_kontext g) um [].

(** One mapped, writable monitor byte behind guest address [0x401000]. *)
Definition example_umem (b : Z) : gmap Z ucell :=
  {[ KKM_KM_USER_MEM_BASE + 0x401000 := mk_ucell b true ]}.

Definition example_kkm : kkm := kkm_with_vdso false 0 0.

Definition example_alloc : alloc_outcome :=
  AllocOk 0xffffea0000040000 0xffff888001000000 0x1000000.

Definition zero_gate : gate_struct := mk_gate 0 0 0 0 0 0 0 0 0 0.

Definition example_stubs : Idt.stubs :=
  Idt.mk_stubs 0xffffffffc0002000 0xffffffffc0002020 0xffffffffc0002040
    0xffffffffc0002060 0xffffffffc0002080 0xffffffffc00020a0
    0xffffffffc00020c0 0xffffffffc00020e0.

Definition example_env : Idt.env :=
  Idt.mk_env 0x900 0x300 0x1000 0x800 0x1000 4 0xffffff0000001000
    (fun va => va - 0xffff888000000000)
    (mk_desc_ptr 0xfff 0xfffffe0000000000) 0xffffff0000000000 example_stubs.

Definition example_intr_function_pointers : list Z :=
  map (fun i => 0xffffffffc0001000 + 8 * Z.of_nat i) (seq 0 256).

Definition example_idt_entry : Idt.kkm_idt_entry :=
  Idt.mk_idt_entry (Idt.mk_page_info 0 0 0) (Idt.mk_page_info 0 0 0)
    (Idt.mk_page_info 0 0 0) (Idt.mk_page_info 0 0 0)
    (mk_desc_ptr 0 0) (mk_desc_ptr 0 0) [].


(** ** Host state across a guest entry (kkm_kontext.c, lines 101-194 and
    293-352) *)

(** The [native_kernel_*] fields of [struct kkm_kontext]. *)
Record native_kernel_state := mk_native_kernel {
  native_kernel_cr3 : Z;
  native_kernel_cr4 : Z;
  native_kernel_ds : Z;
  native_kernel_es : Z;
  native_kernel_fs : Z;
  native_kernel_fs_base : Z;
  native_kernel_gs : Z;
  native_kernel_gs_base : Z;
  native_kernel_gs_kern_base : Z;
  native_kernel_ss : Z;
  native_kernel_entry_syscall_64 : Z
}.

(** The processor state the two functions read and write: what
    [cpu_state] holds, the control registers, the [gs] and [ss] selectors
    and the two [gs] base MSRs. *)
Record host_cpu := mk_host_cpu {
  hc_cpu : cpu_state;
  hc_cr3 : Z;
  hc_cr4 : Z;
  hc_gs : Z;
  hc_ss : Z;
  hc_gs_base : Z;
  hc_kernel_gs_base : Z
}.

(** [ga->guest_kernel_cr3], [ga->guest_payload_cr3], [ga->guest_kernel_cr4]. *)
Record guest_address_spaces := mk_guest_as {
  guest_kernel_cr3 : Z;
  guest_payload_cr3 : Z;
  guest_kernel_cr4 : Z
}.

Definition ga_set_idt_descs (native guest : desc_ptr) (g : kkm_guest_area)
  : kkm_guest_area :=
  mk_ga (regs g) (sregs g) (trap_info g) (kkm_intr_no g) (instruction_decode g)
    (guest_payload_cs g) (guest_payload_ss g) (guest_stack_variable_address g)
    (native_save_tss_sp0 g) (native_save_tss_sp1 g) (native_save_tss_sp2 g)
    native guest (ga_kkm_kontext g) (guest_area_beg g).

(** [kkm_idt_get_desc] (kkm_idt.c, lines 321-334): the native and the
    guest descriptor, field by field. *)
Definition kkm_idt_get_desc (idt_entry : Idt.kkm_idt_entry) : desc_ptr * desc_ptr :=
  (mk_desc_ptr (desc_size (Idt.native_idt_desc idt_entry))
     (desc_address (Idt.native_idt_desc idt_entry)),
   mk_desc_ptr (desc_size (Idt.guest_idt_desc idt_entry))
     (desc_address (Idt.guest_idt_desc idt_entry))).

(** Modelled from the spec: [kkm_change_address_space], which is not among
    the sources ("install the guest-kernel address-space root"): [cr3]
    takes the argument. *)
Definition kkm_change_address_space (cr3 : Z) (cpu : host_cpu) : host_cpu :=
  mk_host_cpu (hc_cpu cpu) cr3 (hc_cr4 cpu)
    (hc_gs cpu) (hc_ss cpu) (hc_gs_base cpu) (hc_kernel_gs_base cpu).

(** [kkm_kontext_switch_kernel] from [begin:] to the call of
    [kkm_switch_to_gk_asm] (lines 108-171): the saved native state, the
    address spaces written to the guest area, the guest area and the
    processor state. *)
Definition switch_kernel_save (idt_entry : Idt.kkm_idt_entry) (k : kkm)
    (g : kkm_guest_area) (cpu : host_cpu)
  : native_kernel_state * guest_address_spaces * kkm_guest_area * host_cpu :=
  let '(native_desc, guest_desc) := kkm_idt_get_desc idt_entry in
  let g1 := ga_set_idt_descs native_desc guest_desc g in
  let spaces := mk_guest_as (guest_kernel_pa k) (guest_payload_pa k) (hc_cr4 cpu) in
  let cpu1 := kkm_change_address_space (guest_kernel_cr3 spaces) cpu in
  let nk :=
    mk_native_kernel (hc_cr3 cpu) (hc_cr4 cpu)
      (seg_ds (hc_cpu cpu1)) (seg_es (hc_cpu cpu1))
      (seg_fs (hc_cpu cpu1)) (msr_fs_base (hc_cpu cpu1))
      (hc_gs cpu1) (hc_gs_base cpu1) (hc_kernel_gs_base cpu1)
      (hc_ss cpu1) (msr_lstar (hc_cpu cpu1)) in
  (nk, spaces, ga_set_intr_no (wrap64 (-1)) g1, cpu1).

(** The processor part of [kkm_switch_to_host_kernel] (lines 316-351):
    the processor state when [kkm_switch_to_hk_asm] is called, and the
    address-space root passed to it. *)
Definition switch_to_host_kernel_restore (nk : native_kernel_state)
    (g : kkm_guest_area) (cpu : host_cpu) : host_cpu * Z :=
  let c :=
    mk_cpu (native_kernel_ds nk) (native_kernel_es nk) (native_kernel_fs nk)
      (native_kernel_fs_base nk) (native_kernel_entry_syscall_64 nk)
      (native_save_tss_sp0 g) (native_save_tss_sp1 g) (native_save_tss_sp2 g)
      (native_idt_desc g) in
  (mk_host_cpu c (hc_cr3 cpu) (hc_cr4 cpu) (native_kernel_gs nk) __KERNEL_DS
     (native_kernel_gs_base nk) (native_kernel_gs_kern_base nk),
   native_kernel_cr3 nk).

(** ** The IDT singleton (kkm_idt.c, lines 67-75 and 291-344) *)

(** [struct kkm_idt]; [desc_entries] holds the [last_id] of each CPU. *)
Record kkm_idt_global := mk_kkm_idt {
  n_entries : Z;
  idt_entry : Idt.kkm_idt_entry;
  desc_entries : list Z
}.

(** The structure after [memset(&kkm_idt, 0, sizeof(kkm_idt))]; no page is
    behind [idt.va] then. *)
Definition zeroed_idt_entry : Idt.kkm_idt_entry :=
  Idt.mk_idt_entry (Idt.mk_page_info 0 0 0) (Idt.mk_page_info 0 0 0)
    (Idt.mk_page_info 0 0 0) (Idt.mk_page_info 0 0 0)
    (mk_desc_ptr 0 0) (mk_desc_ptr 0 0) [].

(** [kkm_idt_init]: [NR_CPUS] and [KKM_INVALID_ID] come from headers. *)
Definition kkm_idt_init (NR_CPUS : nat) (KKM_INVALID_ID : Z)
    (e : Idt.env) (o : alloc_outcome) (mem0 : list gate_struct)
    (intr_function_pointers : list Z) (heap : gset Z)
  : Z * kkm_idt_global * list Z * gset Z :=
  let '(ret_val, entry, ifp, heap') :=
    Idt.kkm_idt_descr_init e o mem0 intr_function_pointers zeroed_idt_entry heap in
  (ret_val,
   mk_kkm_idt (Z.of_nat NR_CPUS) entry (replicate NR_CPUS KKM_INVALID_ID),
   ifp, heap').



(** [kkm_idt_set_id] and [kkm_idt_get_id], lines 336-344.  A [cpu] that is
    not below the length of the array has no counterpart in C; the read
    gives [None] there. *)
Definition kkm_idt_set_id (cpu : nat) (id : Z) (t : kkm_idt_global)
  : kkm_idt_global :=
  mk_kkm_idt (n_entries t) (idt_entry t) (<[cpu := id]> (desc_entries t)).

Definition kkm_idt_get_id (cpu : nat) (t : kkm_idt_global) : option Z :=
  desc_entries t !! cpu.

(** ** Relocation of the entry code (kkm_idt.c, lines 198-285) *)

(** Kernel memory, byte by byte. *)
Definition load32 (mem : Z -> Z) (a : Z) : Z :=
  le_combine [mem a; mem (a + 1); mem (a + 2); mem (a + 3)].

Definition store8 (a v : Z) (mem : Z -> Z) : Z -> Z :=
  fun x => if x =? a then v else mem x.

Fixpoint store_bytes (a : Z) (bs : list Z) (mem : Z -> Z) : Z -> Z :=
  match bs with
  | [] => mem
  | b :: tl => store_bytes (a + 1) tl (store8 a b mem)
  end.

(** [*(uint32_t * )a = v]. *)
Definition store32 (a v : Z) (mem : Z -> Z) : Z -> Z :=
  store_bytes a (le_bytes32 (wrap32 v)) mem.

(** The addresses of the labels the patching refers to, and the address
    the interrupt entry code was copied to ([idt_text_page0.va]). *)
Record relocation := mk_relocation {
  rel_intr_entry_0 : Z;
  rel_syscall_label_1 : Z;
  rel_syscall_label_2 : Z;
  rel_syscall_label_3 : Z;
  rel_text_page0_va : Z
}.

(** Where the copy of the instruction at [label] lies. *)
Definition relocated (r : relocation) (label : Z) : Z :=
  wrap64 (wrap64 (label - rel_intr_entry_0 r) + rel_text_page0_va r).

(** Lines 231-248: [mov %rsp,%gs:off(%rip)] becomes [mov %rsp,%gs:abs]. *)
Definition patch_label_1 (r : relocation) (mem : Z -> Z) : Z -> Z :=
  let insn_addr := rel_syscall_label_1 r in
  if (mem insn_addr =? 0x65) && (mem (insn_addr + 1) =? 0x48)
     && (mem (insn_addr + 2) =? 0x89) && (mem (insn_addr + 3) =? 0x25)
  then
    let offset := load32 mem (insn_addr + 4) in
    let rip_value := insn_addr + 8 in
    let gs_relative_offset := wrap64 (rip_value + offset) in
    let relocated_address := relocated r insn_addr in
    store32 (relocated_address + 5) gs_relative_offset
      (store_bytes relocated_address [0x65; 0x48; 0x89; 0x24; 0x25] mem)
  else mem.

(** Lines 250-267: [mov %gs:off(%rip),%rsp] becomes [mov %gs:abs,%rsp]. *)
Definition patch_label_2 (r : relocation) (mem : Z -> Z) : Z -> Z :=
  let insn_addr := rel_syscall_label_2 r in
  if (mem insn_addr =? 0x65) && (mem (insn_addr + 1) =? 0x48)
     && (mem (insn_addr + 2) =? 0x8b) && (mem (insn_addr + 3) =? 0x25)
  then
    let offset := load32 mem (insn_addr + 4) in
    let rip_value := insn_addr + 8 in
    let gs_relative_offset := wrap64 (rip_value + offset) in
    let relocated_address := relocated r insn_addr in
    store32 (relocated_address + 5) gs_relative_offset
      (store_bytes relocated_address [0x65; 0x48; 0x8b; 0x24; 0x25] mem)
  else mem.

(** Lines 269-285: [push %gs:off(%rip)] becomes [push %gs:abs]. *)
Definition patch_label_3 (r : relocation) (mem : Z -> Z) : Z -> Z :=
  let insn_addr := rel_syscall_label_3 r in
  if (mem insn_addr =? 0x65) && (mem (insn_addr + 1) =? 0xff)
     && (mem (insn_addr + 2) =? 0x35)
  then
    let offset := load32 mem (insn_addr + 3) in
    let rip_value := insn_addr + 7 in
    let gs_relative_offset := wrap64 (rip_value + offset) in
    let relocated_address := relocated r insn_addr in
    store32 (relocated_address + 4) gs_relative_offset
      (store_bytes relocated_address [0x65; 0xff; 0x34; 0x25] mem)
  else mem.

(** Lines 224-285, the three patches in order. *)
Definition patch_relocated_code (r : relocation) (mem : Z -> Z) : Z -> Z :=
  patch_label_3 r (patch_label_2 r (patch_label_1 r mem)).

(** The bytes of [mem] from [a] on. *)
Fixpoint load_bytes (mem : Z -> Z) (a : Z) (n : nat) : list Z :=
  match n with
  | O => []
  | S n' => mem a :: load_bytes mem (a + 1) n'
  end.

(** A 32-bit displacement as the processor reads it. *)
Definition sign_extend32 (d : Z) : Z :=
  if d <? 2 ^ 31 then d else d - 2 ^ 32.

(** Kernel text with the three instructions in their position-dependent
    form, for the examples: label 1 at [0x1000], label 2 at [0x1010],
    label 3 at [0x1020], every other byte a [nop]. *)
Definition example_text : Z -> Z :=
  store_bytes 0x1000 [0x65; 0x48; 0x89; 0x25; 0x10; 0x20; 0x30; 0x40]
    (store_bytes 0x1010 [0x65; 0x48; 0x8b; 0x25; 0xf8; 0xff; 0xff; 0xff]
       (store_bytes 0x1020 [0x65; 0xff; 0x35; 0x04; 0x00; 0x00; 0x00]
          (fun _ => 0x90))).

Definition example_relocation : relocation :=
  mk_relocation 0x0800 0x1000 0x1010 0x1020 0x9000.

(** A host processor state, an installed IDT entry and the state a guest
    run may leave, for the examples. *)
Definition example_host_cpu : host_cpu :=
  mk_host_cpu
    (mk_cpu 0x18 0x18 0 0x7f0000001000 0xffffffff81a00000
       0xfffffe0000003000 0xfffffe0000004000 0
       (mk_desc_ptr 0xfff 0xfffffe0000000000))
    0x1234000 0x3506e0 0 0x18 0xffff888100000000 0x7f0000002000.

Definition example_guest_cpu : host_cpu :=
  mk_host_cpu
    (mk_cpu 0 0 0 0x7fffab000000 0xffffff0000001400
       0xffffff8000000100 0 0 (mk_desc_ptr 0xfff 0xffffff0000000000))
    0x5678000 0x3506e0 0x2b 0x2b 0x1111 0x2222.

Definition example_installed_idt_entry : Idt.kkm_idt_entry :=
  Idt.mk_idt_entry (Idt.mk_page_info 0xffffea0000040000 0xffff888001000000 0x1000000)
    (Idt.mk_page_info 0 0xffff888001001000 0x1001000)
    (Idt.mk_page_info 0 0xffff888001002000 0x1002000)
    (Idt.mk_page_info 0 0xffff888001003000 0x1003000)
    (mk_desc_ptr 0xfff 0xfffffe0000000000)
    (mk_desc_ptr 0xfff 0xffffff0000000000) [].

Definition example_payload_symbols : payload_symbols :=
  mk_payload_symbols 0xffffffffc0002400 0xffffffffc0002000 0xffffff0000001000
    0xffffff8000001f00 0xffffff8000000100.

(** The 64-bit handler address a gate holds in its three offset fields. *)
Definition gate_offset (g : gate_struct) : Z :=
  offset_low g + 2 ^ 16 * offset_middle g + 2 ^ 32 * offset_high g.

(** * Theorems *)

(** Replace the address-space macros by their values. *)
Ltac kkm_consts :=
  change (128 * KKM_TIB - 2 * KKM_MIB) with 0x7fffffe00000 in *;
  change (512 * KKM_GIB) with 0x8000000000 in *;
  change (2 * KKM_MIB) with 0x200000 in *;
  change KKM_GUEST_MEM_START_VA with 0x200000 in *;
  change KKM_GUEST_MAX_PHYS_MEM with 0x8000000000 in *;
  change KKM_GUEST_VA_OFFSET with 0x7f8000000000 in *;
  change KKM_GUEST_MEM_TOP_VA with 0x7fffffe00000 in *;
  change KKM_GUEST_VVAR_VDSO_BASE_VA with 0x7ffffff00000 in *;
  change KKM_KM_USER_MEM_BASE with 0x100000000000 in *.

Ltac zb_true := symmetry; first [apply Z.leb_le | apply Z.ltb_lt]; lia.
Ltac zb_false := symmetry; first [apply Z.leb_gt | apply Z.ltb_ge]; lia.

Lemma wrap64_small x : 0 <= x < 18446744073709551616 -> wrap64 x = x.
Proof. intros H. unfold wrap64. apply Z.mod_small. exact H. Qed.

(** C1: inside the low window the translation succeeds with
    [KKM_KM_USER_MEM_BASE + a]; inside the high window it succeeds with
    [KKM_KM_USER_MEM_BASE + (a - KKM_GUEST_VA_OFFSET)]. *)
Theorem translate_linear_windows (k : kkm) (a : Z) :
  (in_low_window a ->
     kkm_guest_va_to_monitor_va k a = (true, KKM_KM_USER_MEM_BASE + a))
  /\ (in_high_window a ->
     kkm_guest_va_to_monitor_va k a
       = (true, KKM_KM_USER_MEM_BASE + (a - KKM_GUEST_VA_OFFSET))).
Proof.
  unfold in_low_window, in_high_window, kkm_guest_va_to_monitor_va.
  kkm_consts.
  split; intros Ha.
  - replace (0x200000 <=? a) with true by zb_true.
    replace (a <? 0x8000000000) with true by zb_true.
    simpl. rewrite wrap64_small by lia. reflexivity.
  - replace (a <? 0x8000000000) with false by zb_false.
    rewrite andb_false_r.
    replace (0x7f8000000000 <=? a) with true by zb_true.
    replace (a <? 0x7fffffe00000) with true by zb_true.
    simpl. rewrite (wrap64_small (a - _)) by lia.
    rewrite wrap64_small by lia. reflexivity.
Qed.

Lemma translate_linear_windows_witness :
  kkm_guest_va_to_monitor_va (kkm_with_vdso false 0 0) 0x200000
    = (true, KKM_KM_USER_MEM_BASE + 0x200000)
  /\ kkm_guest_va_to_monitor_va (kkm_with_vdso false 0 0) 0x7f8000001000
    = (true, KKM_KM_USER_MEM_BASE + (0x7f8000001000 - KKM_GUEST_VA_OFFSET)).
Proof.
  split.
  - apply (proj1 (translate_linear_windows (kkm_with_vdso false 0 0) 0x200000)).
    unfold in_low_window. kkm_consts. lia.
  - apply (proj2 (translate_linear_windows (kkm_with_vdso false 0 0) 0x7f8000001000)).
    unfold in_high_window. kkm_consts. lia.
Defined.

Example translate_below_low_window :
  kkm_guest_va_to_monitor_va example_kkm 0x1fffff = (false, 0).
Proof. reflexivity. Qed.

Example translate_gap_below_vdso :
  kkm_guest_va_to_monitor_va (kkm_with_vdso true 0x7f1234560000 0x4000)
    0x7fffffe00000 = (false, 0).
Proof. reflexivity. Qed.

Example store32_bytes :
  store32_at0 0x1122334455667788 [0xaa; 0xbb; 0xcc; 0xdd; 0xee]
    = [0x88; 0x77; 0x66; 0x55; 0xee].
Proof. reflexivity. Qed.

(** Every address the translator accepts lies at or above 2 MiB. *)
Lemma translate_ok_lower_bound (k : kkm) (a m : Z) :
  kkm_guest_va_to_monitor_va k a = (true, m) -> 0x200000 <= a.
Proof.
  unfold kkm_guest_va_to_monitor_va. kkm_consts.
  destruct (0x200000 <=? a) eqn:E1; [apply Z.leb_le in E1; lia |].
  apply Z.leb_gt in E1. simpl.
  destruct (0x7f8000000000 <=? a) eqn:E2; [apply Z.leb_le in E2; lia |].
  simpl.
  destruct (mem_slot k !! KKM_KM_RSRV_VDSOSLOT) as [slot |]; [| discriminate].
  destruct (used slot); simpl; [| discriminate].
  destruct (0x7ffffff00000 <=? a) eqn:E3; simpl; [| discriminate].
  apply Z.leb_le in E3. lia.
Qed.

(** Above the two linear windows only the reserved slot decides. *)
Lemma translate_above_windows (k : kkm) (a : Z) :
  KKM_GUEST_VVAR_VDSO_BASE_VA <= a ->
  kkm_guest_va_to_monitor_va k a =
    match mem_slot k !! KKM_KM_RSRV_VDSOSLOT with
    | Some slot =>
        if used slot
           && (a <? wrap64 (KKM_GUEST_VVAR_VDSO_BASE_VA + memory_size (mr slot)))
        then (true, wrap64 (wrap64 (a - KKM_GUEST_VVAR_VDSO_BASE_VA)
                            + userspace_addr (mr slot)))
        else (false, 0)
    | None => (false, 0)
    end.
Proof.
  intros Ha. unfold kkm_guest_va_to_monitor_va.
  replace (a <? KKM_GUEST_MAX_PHYS_MEM) with false by (kkm_consts; zb_false).
  rewrite andb_false_r.
  replace (a <? KKM_GUEST_MEM_TOP_VA) with false by (kkm_consts; zb_false).
  rewrite andb_false_r.
  destruct (mem_slot k !! KKM_KM_RSRV_VDSOSLOT) as [slot |]; [| reflexivity].
  replace (KKM_GUEST_VVAR_VDSO_BASE_VA <=? a) with true by zb_true.
  rewrite andb_true_r. reflexivity.
Qed.

(** C5, as the code has it: for a slot whose guest range ends below
    [2^64], a valid slot translates [a] to [b + (a - vvar_base)] in 64-bit
    arithmetic; an invalid slot makes the translation fail. *)
Theorem translate_vdso_slot (k : kkm) (slot : kkm_mem_slot) (a : Z) :
  mem_slot k !! KKM_KM_RSRV_VDSOSLOT = Some slot ->
  KKM_GUEST_VVAR_VDSO_BASE_VA <= a
    < KKM_GUEST_VVAR_VDSO_BASE_VA + memory_size (mr slot) ->
  (used slot = true ->
   KKM_GUEST_VVAR_VDSO_BASE_VA + memory_size (mr slot) < 2 ^ 64 ->
   kkm_guest_va_to_monitor_va k a
     = (true, wrap64 (userspace_addr (mr slot)
                      + (a - KKM_GUEST_VVAR_VDSO_BASE_VA))))
  /\ (used slot = false -> kkm_guest_va_to_monitor_va k a = (false, 0)).
Proof.
  intros Hslot Ha.
  rewrite translate_above_windows by lia. rewrite Hslot.
  split.
  - intros Hu Hs. rewrite Hu. simpl.
    change (2 ^ 64) with 18446744073709551616 in Hs.
    rewrite (wrap64_small (KKM_GUEST_VVAR_VDSO_BASE_VA + _))
      by (kkm_consts; lia).
    replace (a <? _) with true by zb_true.
    rewrite (wrap64_small (a - _)) by (kkm_consts; lia).
    rewrite Z.add_comm. reflexivity.
  - intros Hu. rewrite Hu. reflexivity.
Qed.

Lemma translate_vdso_slot_witness :
  kkm_guest_va_to_monitor_va (kkm_with_vdso true 0x7f1234560000 0x4000)
      0x7ffffff01008
    = (true, wrap64 (0x7f1234560000 + (0x7ffffff01008 - KKM_GUEST_VVAR_VDSO_BASE_VA)))
  /\ kkm_guest_va_to_monitor_va (kkm_with_vdso false 0x7f1234560000 0x4000)
      0x7ffffff01008
    = (false, 0).
Proof.
  split.
  - apply (proj1 (translate_vdso_slot (kkm_with_vdso true 0x7f1234560000 0x4000)
                    (mk_mem_slot true (mk_memory_region 0x4000 0x7f1234560000))
                    0x7ffffff01008 eq_refl
                    ltac:(kkm_consts; simpl; lia)));
      [reflexivity | simpl; kkm_consts; lia].
  - apply (proj2 (translate_vdso_slot (kkm_with_vdso false 0x7f1234560000 0x4000)
                    (mk_mem_slot false (mk_memory_region 0x4000 0x7f1234560000))
                    0x7ffffff01008 eq_refl
                    ltac:(kkm_consts; simpl; lia)));
      reflexivity.
Defined.

(** C5 as worded fails: a valid slot of size [2^64 - 1] makes the end of
    the guest range wrap around, and the first address of the range is
    rejected. *)
Lemma translate_vdso_slot_wraps :
  let k := kkm_with_vdso true 0x7f1234560000 0xFFFFFFFFFFFFFFFF in
  let a := KKM_GUEST_VVAR_VDSO_BASE_VA in
  mem_slot k !! KKM_KM_RSRV_VDSOSLOT
    = Some (mk_mem_slot true (mk_memory_region 0xFFFFFFFFFFFFFFFF 0x7f1234560000))
  /\ KKM_GUEST_VVAR_VDSO_BASE_VA <= a
       < KKM_GUEST_VVAR_VDSO_BASE_VA + 0xFFFFFFFFFFFFFFFF
  /\ kkm_guest_va_to_monitor_va k a = (false, 0)
  /\ kkm_guest_va_to_monitor_va k a
       <> (true, 0x7f1234560000 + (a - KKM_GUEST_VVAR_VDSO_BASE_VA)).
Proof.
  cbv zeta. split; [reflexivity |]. split; [kkm_consts; lia |].
  assert (E : kkm_guest_va_to_monitor_va
                (kkm_with_vdso true 0x7f1234560000 0xFFFFFFFFFFFFFFFF)
                KKM_GUEST_VVAR_VDSO_BASE_VA = (false, 0)) by (vm_compute; reflexivity).
  split; [exact E | rewrite E; discriminate].
Qed.

(** ** Theorems: trap emulators *)

Section EmulatorFacts.

Variable KKM_OUT_OPCODE : Z.
Variable KKM_KONTEXT_FAULT_PROCESS_DONE : Z.

Lemma copy_from_user_byte_mapped (addr : Z) (st : kstate) (c : ucell) :
  st_umem st !! addr = Some c ->
  copy_from_user_byte addr st
    = (0, mk_kstate
            (kontext_set_ga
               (ga_set_instruction_decode
                  (cell_val c :: tail (instruction_decode (ga (st_kontext st))))
                  (ga (st_kontext st)))
               (st_kontext st))
            (st_umem st) (st_probes st ++ [ProbeRead addr])).
Proof. intros H. unfold copy_from_user_byte. rewrite H. reflexivity. Qed.

Lemma copy_to_user_byte_writable (addr : Z) (st : kstate) (c : ucell) :
  st_umem st !! addr = Some c ->
  cell_writable c = true ->
  copy_to_user_byte addr st
    = (0, mk_kstate (st_kontext st)
            (<[addr := mk_ucell (hd 0 (instruction_decode (ga (st_kontext st)))) true]>
               (st_umem st))
            (st_probes st
               ++ [ProbeWrite addr (hd 0 (instruction_decode (ga (st_kontext st))))])).
Proof. intros H Hw. unfold copy_to_user_byte. rewrite H, Hw. reflexivity. Qed.

(** C2: a user-mode page fault at a translatable, mapped address is
    answered by one read probe (and, for a write fault on a writable byte,
    one write-back of the byte just read) and the guest-resumable outcome;
    a supervisor-mode fault is answered by [0] without any probe. *)
Theorem page_fault_probes (st : kstate) (m : Z) :
  let g := ga (st_kontext st) in
  let error_code := trap_error (trap_info g) in
  kkm_guest_va_to_monitor_va (kontext_kkm (st_kontext st)) (cr2 (sregs g))
    = (true, m) ->
  (forall c,
     Z.land error_code X86_PF_USER = X86_PF_USER ->
     Z.land error_code X86_PF_WRITE = 0 ->
     st_umem st !! m = Some c ->
     exists st',
       kkm_process_page_fault KKM_KONTEXT_FAULT_PROCESS_DONE st
         = (KKM_KONTEXT_FAULT_PROCESS_DONE, st')
       /\ st_probes st' = st_probes st ++ [ProbeRead m]
       /\ st_umem st' = st_umem st)
  /\ (forall c,
     Z.land error_code X86_PF_USER = X86_PF_USER ->
     Z.land error_code X86_PF_WRITE = X86_PF_WRITE ->
     st_umem st !! m = Some c ->
     cell_writable c = true ->
     exists st',
       kkm_process_page_fault KKM_KONTEXT_FAULT_PROCESS_DONE st
         = (KKM_KONTEXT_FAULT_PROCESS_DONE, st')
       /\ st_probes st'
            = st_probes st ++ [ProbeRead m; ProbeWrite m (cell_val c)]
       /\ st_umem st' = <[m := mk_ucell (cell_val c) true]> (st_umem st))
  /\ (Z.land error_code X86_PF_USER = 0 ->
      kkm_process_page_fault KKM_KONTEXT_FAULT_PROCESS_DONE st = (0, st)).
Proof.
  intros g error_code Htr. subst g error_code.
  unfold kkm_process_page_fault. rewrite Htr.
  split; [| split].
  - intros c Hu Hw Hm. rewrite Hu, Z.eqb_refl, Hw.
    rewrite (copy_from_user_byte_mapped _ _ _ Hm).
    change (0 =? X86_PF_WRITE) with false. cbv iota beta.
    eexists. split; [reflexivity |]. split; reflexivity.
  - intros c Hu Hw Hm Hc. rewrite Hu, Z.eqb_refl, Hw, Z.eqb_refl.
    rewrite (copy_from_user_byte_mapped _ _ _ Hm). cbv iota beta.
    erewrite copy_to_user_byte_writable by (simpl; eassumption).
    eexists. split; [reflexivity |]. simpl.
    rewrite <- app_assoc. split; reflexivity.
  - intros Hu. rewrite Hu. reflexivity.
Qed.

(** The out branch of the protected-mode emulator, for any register
    content. *)
Lemma general_protection_out (st : kstate) (m : Z) (c : ucell) :
  let k := st_kontext st in
  kkm_guest_va_to_monitor_va (kontext_kkm k) (trap_rip (trap_info (ga k)))
    = (true, m) ->
  st_umem st !! m = Some c ->
  cell_val c = KKM_OUT_OPCODE ->
  exists st',
    kkm_process_general_protection KKM_OUT_OPCODE st = (0, st')
    /\ mmap_area0 (st_kontext st')
         = mk_run KKM_EXIT_IO
             (mk_run_io KKM_EXIT_IO_OUT 4 (Z.land (rdx (regs (ga k))) 0xFFFF) 1
                PAGE_SIZE)
    /\ mmap_area1 (st_kontext st')
         = le_bytes32 (wrap32 (rax (regs (ga k)))) ++ drop 4 (mmap_area1 k)
    /\ rip (regs (ga (st_kontext st'))) = wrap64 (rip (regs (ga k)) + 1)
    /\ st_probes st' = st_probes st ++ [ProbeRead m].
Proof.
  intros k Htr Hm Hop. subst k.
  unfold kkm_process_general_protection. rewrite Htr.
  rewrite (copy_from_user_byte_mapped _ _ _ Hm). cbv iota beta.
  cbn [st_kontext kontext_set_ga ga ga_set_instruction_decode instruction_decode hd].
  rewrite Hop, Z.eqb_refl.
  eexists. split; [reflexivity |]. repeat split.
Qed.

(** The other branch: the fetched byte is not the out opcode. *)
Lemma general_protection_other (st : kstate) (m : Z) (c : ucell) :
  let k := st_kontext st in
  kkm_guest_va_to_monitor_va (kontext_kkm k) (trap_rip (trap_info (ga k)))
    = (true, m) ->
  st_umem st !! m = Some c ->
  cell_val c <> KKM_OUT_OPCODE ->
  kkm_process_general_protection KKM_OUT_OPCODE st
    = (0, mk_kstate
            (kontext_set_ga
               (ga_set_instruction_decode
                  (cell_val c :: tail (instruction_decode (ga k))) (ga k)) k)
            (st_umem st) (st_probes st ++ [ProbeRead m])).
Proof.
  intros k Htr Hm Hop. subst k.
  unfold kkm_process_general_protection. rewrite Htr.
  rewrite (copy_from_user_byte_mapped _ _ _ Hm). cbv iota beta.
  cbn [st_kontext kontext_set_ga ga ga_set_instruction_decode instruction_decode hd].
  apply Z.eqb_neq in Hop. rewrite Hop. reflexivity.
Qed.

(** On the way back from a trap the saved instruction pointer is the
    faulting one. *)
Lemma switch_to_host_kernel_rip (st : kstate) :
  let g := ga (st_kontext (kkm_switch_to_host_kernel st)) in
  rip (regs g) = trap_rip (trap_info g).
Proof. reflexivity. Qed.

(** C3: the out opcode fetched at the faulting instruction pointer, with
    [rax = 0x1234] and [rdx = 0x03F8], stages an I/O exit (out, size 4,
    port 0x03F8, count 1), puts the bytes of 0x00001234 at the start of
    the data page and moves the instruction pointer one byte past the
    faulting one. *)
Theorem general_protection_out_scenario (st : kstate) (m : Z) (c : ucell) :
  let k := st_kontext st in
  let g := ga k in
  kkm_guest_va_to_monitor_va (kontext_kkm k) (trap_rip (trap_info g)) = (true, m) ->
  st_umem st !! m = Some c ->
  cell_val c = KKM_OUT_OPCODE ->
  rip (regs g) = trap_rip (trap_info g) ->
  rax (regs g) = 0x1234 ->
  rdx (regs g) = 0x03F8 ->
  exists st',
    kkm_process_general_protection KKM_OUT_OPCODE st = (0, st')
    /\ exit_reason (mmap_area0 (st_kontext st')) = KKM_EXIT_IO
    /\ io_direction (io (mmap_area0 (st_kontext st'))) = KKM_EXIT_IO_OUT
    /\ io_size (io (mmap_area0 (st_kontext st'))) = 4
    /\ io_port (io (mmap_area0 (st_kontext st'))) = 0x03F8
    /\ io_count (io (mmap_area0 (st_kontext st'))) = 1
    /\ take 4 (mmap_area1 (st_kontext st')) = [0x34; 0x12; 0x00; 0x00]
    /\ le_combine (take 4 (mmap_area1 (st_kontext st'))) = 0x00001234
    /\ rip (regs (ga (st_kontext st')))
         = wrap64 (trap_rip (trap_info g) + 1)
    /\ (trap_rip (trap_info g) + 1 < 2 ^ 64 ->
        rip (regs (ga (st_kontext st'))) = trap_rip (trap_info g) + 1).
Proof.
  intros k g Htr Hm Hop Hrip Hrax Hrdx.
  destruct (general_protection_out st m c Htr Hm Hop)
    as (st' & Hrun & Hrec & Hdata & Hip & _).
  fold k in Hrec, Hdata, Hip. fold g in Hrec, Hdata, Hip.
  rewrite Hrax in Hdata. rewrite Hrdx in Hrec. rewrite Hrip in Hip.
  exists st'. split; [exact Hrun |].
  rewrite Hrec, Hdata, Hip. cbn [exit_reason io io_direction io_size io_port io_count].
  repeat (split; [reflexivity |]).
  intros Hlt. apply wrap64_small.
  pose proof (translate_ok_lower_bound _ _ _ Htr) as Hlo.
  change (2 ^ 64) with 18446744073709551616 in Hlt. lia.
Qed.

(** C7, as the code has it: a fetched byte that is not the out opcode
    makes the emulator return [0]; the run record, the data page and the
    guest registers stay as they were. *)
Theorem general_protection_mismatch (st : kstate) (m : Z) (c : ucell) :
  let k := st_kontext st in
  kkm_guest_va_to_monitor_va (kontext_kkm k) (trap_rip (trap_info (ga k)))
    = (true, m) ->
  st_umem st !! m = Some c ->
  cell_val c <> KKM_OUT_OPCODE ->
  exists st',
    kkm_process_general_protection KKM_OUT_OPCODE st = (0, st')
    /\ mmap_area0 (st_kontext st') = mmap_area0 k
    /\ mmap_area1 (st_kontext st') = mmap_area1 k
    /\ regs (ga (st_kontext st')) = regs (ga k)
    /\ hd 0 (instruction_decode (ga (st_kontext st'))) = cell_val c.
Proof.
  intros k Htr Hm Hop.
  rewrite (general_protection_other st m c Htr Hm Hop).
  eexists. split; [reflexivity |]. repeat split.
Qed.

(** Outside the three ranges the translator fails and leaves [0] in
    [*monitor_va]. *)
Lemma translate_outside (k : kkm) (a : Z) :
  (forall slot, mem_slot k !! KKM_KM_RSRV_VDSOSLOT = Some slot ->
                0 <= memory_size (mr slot)) ->
  ~ in_low_window a -> ~ in_high_window a -> ~ in_vdso_range k a ->
  kkm_guest_va_to_monitor_va k a = (false, 0).
Proof.
  intros Hwf Hlow Hhigh Hvdso.
  unfold in_low_window, in_high_window in *.
  unfold kkm_guest_va_to_monitor_va.
  destruct ((KKM_GUEST_MEM_START_VA <=? a) && (a <? KKM_GUEST_MAX_PHYS_MEM)) eqn:E1.
  { apply andb_true_iff in E1 as [E1 E1'].
    apply Z.leb_le in E1. apply Z.ltb_lt in E1'. kkm_consts. lia. }
  destruct ((KKM_GUEST_VA_OFFSET <=? a) && (a <? KKM_GUEST_MEM_TOP_VA)) eqn:E2.
  { apply andb_true_iff in E2 as [E2 E2'].
    apply Z.leb_le in E2. apply Z.ltb_lt in E2'. kkm_consts. lia. }
  destruct (mem_slot k !! KKM_KM_RSRV_VDSOSLOT) as [slot |] eqn:Hslot;
    [| reflexivity].
  destruct (used slot && (KKM_GUEST_VVAR_VDSO_BASE_VA <=? a)
            && (a <? wrap64 (KKM_GUEST_VVAR_VDSO_BASE_VA + memory_size (mr slot))))
    eqn:E3; [| reflexivity].
  exfalso. apply Hvdso. exists slot.
  apply andb_true_iff in E3 as [E3 E3'].
  apply andb_true_iff in E3 as [E3 E3''].
  apply Z.leb_le in E3''. apply Z.ltb_lt in E3'.
  split; [exact Hslot |]. split; [exact E3 |]. split; [exact E3'' |].
  specialize (Hwf slot eq_refl).
  assert (Hle : wrap64 (KKM_GUEST_VVAR_VDSO_BASE_VA + memory_size (mr slot))
                <= KKM_GUEST_VVAR_VDSO_BASE_VA + memory_size (mr slot)).
  { unfold wrap64. apply Z.mod_le; [kkm_consts; lia | reflexivity]. }
  lia.
Qed.

(** C6: outside the three ranges the translation fails, and both
    emulators answer the failure with [-EFAULT], leaving the state as it
    was: no byte of monitor memory is read or written. *)
Theorem translate_outside_fails (st : kstate) (a : Z) :
  let k := st_kontext st in
  (forall slot, mem_slot (kontext_kkm k) !! KKM_KM_RSRV_VDSOSLOT = Some slot ->
                0 <= memory_size (mr slot)) ->
  ~ in_low_window a -> ~ in_high_window a -> ~ in_vdso_range (kontext_kkm k) a ->
  kkm_guest_va_to_monitor_va (kontext_kkm k) a = (false, 0)
  /\ (trap_rip (trap_info (ga k)) = a ->
      kkm_process_general_protection KKM_OUT_OPCODE st = (- EFAULT, st))
  /\ (cr2 (sregs (ga k)) = a ->
      kkm_process_page_fault KKM_KONTEXT_FAULT_PROCESS_DONE st = (- EFAULT, st)).
Proof.
  intros k Hwf Hlow Hhigh Hvdso.
  pose proof (translate_outside _ _ Hwf Hlow Hhigh Hvdso) as Hfail.
  split; [exact Hfail |]. split; intros Ha.
  - unfold kkm_process_general_protection. fold k. rewrite Ha, Hfail. reflexivity.
  - unfold kkm_process_page_fault. fold k. rewrite Ha, Hfail. reflexivity.
Qed.

(** C4: a vector other than general-protection and page-fault is answered
    with [-EOPNOTSUPP], which is negative and is not the resume code; no
    emulator runs, and the re-entry loop returns that error to its caller
    at once. *)
Theorem unsupported_trap_rejected (guest_run : kstate -> kstate) (st : kstate) :
  0 <= KKM_KONTEXT_FAULT_PROCESS_DONE ->
  kkm_intr_no (ga (st_kontext st)) <> X86_TRAP_GP ->
  kkm_intr_no (ga (st_kontext st)) <> X86_TRAP_PF ->
  exists st',
    kkm_process_intr KKM_OUT_OPCODE KKM_KONTEXT_FAULT_PROCESS_DONE st
      = (- EOPNOTSUPP, st')
    /\ - EOPNOTSUPP < 0
    /\ - EOPNOTSUPP <> KKM_KONTEXT_FAULT_PROCESS_DONE
    /\ st_probes st' = st_probes st
    /\ st_umem st' = st_umem st
    /\ ga (st_kontext st') = ga (st_kontext st)
    /\ (forall fuel st0,
          kkm_switch_to_host_kernel (guest_run (clear_intr_no st0)) = st ->
          kkm_kontext_switch_kernel KKM_OUT_OPCODE KKM_KONTEXT_FAULT_PROCESS_DONE
            guest_run (S fuel) st0 = Some (- EOPNOTSUPP, st')).
Proof.
  intros Hdone Hgp Hpf.
  assert (Hintr : kkm_process_intr KKM_OUT_OPCODE KKM_KONTEXT_FAULT_PROCESS_DONE st
            = (- EOPNOTSUPP,
               st_set_kontext
                 (kontext_set_run
                    (mk_run KKM_EXIT_UNKNOWN (io (mmap_area0 (st_kontext st))))
                    (st_kontext st)) st)).
  { unfold kkm_process_intr.
    apply Z.eqb_neq in Hgp. apply Z.eqb_neq in Hpf. rewrite Hgp, Hpf. reflexivity. }
  eexists. split; [exact Hintr |].
  assert (Hne : - EOPNOTSUPP <> KKM_KONTEXT_FAULT_PROCESS_DONE)
    by (unfold EOPNOTSUPP; lia).
  split; [unfold EOPNOTSUPP; lia |]. split; [exact Hne |].
  repeat (split; [reflexivity |]).
  intros fuel st0 Hst0. cbn [kkm_kontext_switch_kernel].
  rewrite Hst0, Hintr.
  apply Z.eqb_neq in Hne. rewrite Hne. reflexivity.
Qed.

End EmulatorFacts.

(** *** The emulators on concrete traps *)

Lemma page_fault_probes_witness :
  (exists st',
     kkm_process_page_fault 1
       (example_state (example_ga 14 4 0x401000 0x400800 0 0) (example_umem 0x5a))
       = (1, st')
     /\ st_probes st' = [ProbeRead (KKM_KM_USER_MEM_BASE + 0x401000)])
  /\ (exists st',
     kkm_process_page_fault 1
       (example_state (example_ga 14 6 0x401000 0x400800 0 0) (example_umem 0x5a))
       = (1, st')
     /\ st_probes st' = [ProbeRead (KKM_KM_USER_MEM_BASE + 0x401000);
                         ProbeWrite (KKM_KM_USER_MEM_BASE + 0x401000) 0x5a])
  /\ kkm_process_page_fault 1
       (example_state (example_ga 14 2 0x401000 0x400800 0 0) (example_umem 0x5a))
     = (0, example_state (example_ga 14 2 0x401000 0x400800 0 0) (example_umem 0x5a)).
Proof.
  split; [| split].
  - destruct (proj1 (page_fault_probes 1
                       (example_state (example_ga 14 4 0x401000 0x400800 0 0)
                          (example_umem 0x5a))
                       (KKM_KM_USER_MEM_BASE + 0x401000) eq_refl)
                (mk_ucell 0x5a true) eq_refl eq_refl eq_refl)
      as (st' & Hret & Hlog & _).
    exists st'. split; [exact Hret | exact Hlog].
  - destruct (proj1 (proj2 (page_fault_probes 1
                       (example_state (example_ga 14 6 0x401000 0x400800 0 0)
                          (example_umem 0x5a))
                       (KKM_KM_USER_MEM_BASE + 0x401000) eq_refl))
                (mk_ucell 0x5a true) eq_refl eq_refl eq_refl eq_refl)
      as (st' & Hret & Hlog & _).
    exists st'. split; [exact Hret | exact Hlog].
  - exact (proj2 (proj2 (page_fault_probes 1
                       (example_state (example_ga 14 2 0x401000 0x400800 0 0)
                          (example_umem 0x5a))
                       (KKM_KM_USER_MEM_BASE + 0x401000) eq_refl))
             eq_refl).
Defined.

Lemma general_protection_out_scenario_witness :
  exists st',
    kkm_process_general_protection 0xEF
      (example_state (example_ga 13 0 0 0x401000 0x1234 0x03F8) (example_umem 0xEF))
      = (0, st')
    /\ io_port (io (mmap_area0 (st_kontext st'))) = 0x03F8
    /\ take 4 (mmap_area1 (st_kontext st')) = [0x34; 0x12; 0x00; 0x00]
    /\ rip (regs (ga (st_kontext st'))) = 0x401000 + 1.
Proof.
  destruct (general_protection_out_scenario 0xEF
              (example_state (example_ga 13 0 0 0x401000 0x1234 0x03F8)
                 (example_umem 0xEF))
              (KKM_KM_USER_MEM_BASE + 0x401000) (mk_ucell 0xEF true)
              eq_refl eq_refl eq_refl eq_refl eq_refl eq_refl)
    as (st' & Hret & _ & _ & _ & Hport & _ & Hdata & _ & _ & Hip).
  exists st'. split; [exact Hret |]. split; [exact Hport |].
  split; [exact Hdata |]. apply Hip. reflexivity.
Defined.

Lemma general_protection_mismatch_witness :
  exists st',
    kkm_process_general_protection 0xEF
      (example_state (example_ga 13 0 0 0x401000 0x1234 0x03F8) (example_umem 0x90))
      = (0, st')
    /\ mmap_area0 (st_kontext st') = example_run.
Proof.
  destruct (general_protection_mismatch 0xEF
              (example_state (example_ga 13 0 0 0x401000 0x1234 0x03F8)
                 (example_umem 0x90))
              (KKM_KM_USER_MEM_BASE + 0x401000) (mk_ucell 0x90 true)
              eq_refl eq_refl ltac:(simpl; lia))
    as (st' & Hret & Hrun & _).
  exists st'. split; [exact Hret | exact Hrun].
Defined.

(** C7 as worded fails, whatever the value of the opcode macro: a guest
    whose faulting instruction is another byte gets the return value [0],
    not an error status. *)
Lemma general_protection_mismatch_not_error :
  ~ (exists KKM_OUT_OPCODE : Z,
       forall (st : kstate) (m : Z) (c : ucell),
         kkm_guest_va_to_monitor_va (kontext_kkm (st_kontext st))
           (trap_rip (trap_info (ga (st_kontext st)))) = (true, m) ->
         st_umem st !! m = Some c ->
         cell_val c <> KKM_OUT_OPCODE ->
         fst (kkm_process_general_protection KKM_OUT_OPCODE st) <> 0).
Proof.
  intros [opc H].
  set (b := if opc =? 0x90 then 0x91 else 0x90).
  assert (Hb : b <> opc).
  { subst b. destruct (opc =? 0x90) eqn:E.
    - apply Z.eqb_eq in E. lia.
    - apply Z.eqb_neq in E. lia. }
  set (st := example_state (example_ga 13 0 0 0x401000 0x1234 0x03F8) (example_umem b)).
  assert (Hm : st_umem st !! (KKM_KM_USER_MEM_BASE + 0x401000)
               = Some (mk_ucell b true)).
  { subst st. unfold example_state, example_umem. cbn [st_umem].
    apply lookup_singleton_eq. }
  apply (H st (KKM_KM_USER_MEM_BASE + 0x401000) (mk_ucell b true) eq_refl Hm Hb).
  rewrite (general_protection_other opc st _ _ eq_refl Hm Hb). reflexivity.
Qed.

Lemma translate_outside_fails_witness :
  let st := example_state (example_ga 14 4 0x1000 0x1000 0 0) (example_umem 0) in
  kkm_guest_va_to_monitor_va (kontext_kkm (st_kontext st)) 0x1000 = (false, 0)
  /\ kkm_process_general_protection 0xEF st = (- EFAULT, st)
  /\ kkm_process_page_fault 1 st = (- EFAULT, st).
Proof.
  intros st.
  assert (Hwf : forall slot,
             mem_slot (kontext_kkm (st_kontext st)) !! KKM_KM_RSRV_VDSOSLOT = Some slot ->
             0 <= memory_size (mr slot)).
  { intros slot Hs. vm_compute in Hs. injection Hs as <-. simpl. lia. }
  assert (Hlow : ~ in_low_window 0x1000)
    by (unfold in_low_window; kkm_consts; lia).
  assert (Hhigh : ~ in_high_window 0x1000)
    by (unfold in_high_window; kkm_consts; lia).
  assert (Hvdso : ~ in_vdso_range (kontext_kkm (st_kontext st)) 0x1000).
  { intros (slot & Hs & Hu & _). vm_compute in Hs. injection Hs as <-.
    discriminate Hu. }
  destruct (translate_outside_fails 0xEF 1 st 0x1000 Hwf Hlow Hhigh Hvdso)
    as (Htr & Hgp & Hpf).
  split; [exact Htr |]. split; [exact (Hgp eq_refl) | exact (Hpf eq_refl)].
Defined.

Lemma unsupported_trap_rejected_witness :
  exists st',
    kkm_process_intr 0xEF 1
      (example_state (example_ga 6 0 0 0x401000 0 0) (example_umem 0x0f))
      = (- EOPNOTSUPP, st')
    /\ - EOPNOTSUPP <> 1
    /\ kkm_kontext_switch_kernel 0xEF 1
         (fun _ => example_state (example_ga 6 0 0 0x401000 0 0) (example_umem 0x0f))
         1 (example_state (example_ga 0 0 0 0 0 0) (example_umem 0x0f))
       = Some (- EOPNOTSUPP, st').
Proof.
  destruct (unsupported_trap_rejected 0xEF 1
              (fun _ => example_state (example_ga 6 0 0 0x401000 0 0) (example_umem 0x0f))
              (example_state (example_ga 6 0 0 0x401000 0 0) (example_umem 0x0f))
              ltac:(lia) ltac:(simpl; unfold X86_TRAP_GP; lia)
              ltac:(simpl; unfold X86_TRAP_PF; lia))
    as (st' & Hret & _ & Hne & _ & _ & _ & Hloop).
  exists st'. split; [exact Hret |]. split; [exact Hne |].
  apply Hloop. reflexivity.
Defined.

(** ** Theorems: payload entry *)

Example payload_rflags_user_flags : payload_rflags 0x3246 = 0x10046.
Proof. reflexivity. Qed.

Example payload_rflags_resume_kept : payload_rflags 0x10002 = 0x10002.
Proof. reflexivity. Qed.

Lemma land_single_bit (x n : Z) :
  0 <= n -> Z.land x (2 ^ n) = 0 \/ Z.land x (2 ^ n) = 2 ^ n.
Proof.
  intros Hn. destruct (Z.testbit x n) eqn:Hx; [right | left];
    apply Z.bits_inj'; intros i Hi;
    rewrite Z.land_spec, Z.pow2_bits_eqb by lia.
  - destruct (Z.eqb_spec n i) as [<- | _].
    + rewrite Hx. reflexivity.
    + apply andb_false_r.
  - rewrite Z.bits_0. destruct (Z.eqb_spec n i) as [<- | _].
    + rewrite Hx. reflexivity.
    + apply andb_false_r.
Qed.

Lemma land_clear (x mask bit : Z) :
  Z.land (not64 mask) bit = 0 -> Z.land (Z.land x (not64 mask)) bit = 0.
Proof. intros H. rewrite <- Z.land_assoc, H. apply Z.land_0_r. Qed.

Lemma land_keep_zero (x mask bit : Z) :
  Z.land x bit = 0 -> Z.land (Z.land x mask) bit = 0.
Proof.
  intros H. rewrite <- Z.land_assoc, (Z.land_comm mask), Z.land_assoc, H.
  apply Z.land_0_l.
Qed.

Lemma payload_rflags_bits (f : Z) :
  Z.land (payload_rflags f) X86_EFLAGS_IF = 0
  /\ Z.land (payload_rflags f) X86_EFLAGS_IOPL = 0
  /\ Z.land (payload_rflags f) X86_EFLAGS_RF = X86_EFLAGS_RF.
Proof.
  unfold payload_rflags.
  set (f1 := Z.land f (not64 X86_EFLAGS_IF)).
  assert (A : Z.land f1 X86_EFLAGS_IF = 0) by (apply land_clear; reflexivity).
  set (f2 := if Z.land f1 X86_EFLAGS_IOPL =? 0 then f1
             else Z.land f1 (not64 X86_EFLAGS_IOPL)).
  assert (B : Z.land f2 X86_EFLAGS_IOPL = 0).
  { subst f2. destruct (Z.eqb_spec (Z.land f1 X86_EFLAGS_IOPL) 0) as [E | _].
    - exact E.
    - apply land_clear. reflexivity. }
  assert (C : Z.land f2 X86_EFLAGS_IF = 0).
  { subst f2. destruct (Z.land f1 X86_EFLAGS_IOPL =? 0).
    - exact A.
    - apply land_keep_zero. exact A. }
  destruct (Z.eqb_spec (Z.land f2 X86_EFLAGS_RF) 0) as [E | E].
  - rewrite !Z.land_lor_distr_l, C, B, E. repeat split.
  - split; [exact C |]. split; [exact B |].
    destruct (land_single_bit f2 16) as [H | H]; [lia | | exact H].
    exfalso. apply E. exact H.
Qed.

(** C8: whatever the incoming guest area holds, the guest area handed to
    the payload has the user code and stack selectors, the interrupt flag
    and the I/O privilege level cleared and the resume flag set; the entry
    is given up only when the redzone check refuses. *)
Theorem start_payload_selectors_and_flags
    (verify_redzone : kkm_guest_area -> bool) (sym : payload_symbols)
    (g : kkm_guest_area) (cpu : cpu_state) :
  match kkm_guest_kernel_start_payload verify_redzone sym g cpu with
  | Some (g', _) =>
      guest_payload_cs g' = __USER_CS
      /\ guest_payload_ss g' = __USER_DS
      /\ Z.land (rflags (regs g')) X86_EFLAGS_IF = 0
      /\ Z.land (rflags (regs g')) X86_EFLAGS_IOPL = 0
      /\ Z.land (rflags (regs g')) X86_EFLAGS_RF = X86_EFLAGS_RF
  | None => verify_redzone (payload_prepare sym g) = false
  end.
Proof.
  unfold kkm_guest_kernel_start_payload.
  destruct (verify_redzone (payload_prepare sym g)) eqn:Hv; [| reflexivity].
  cbn [payload_prepare ga_set_native_tss ga_set_regs ga_set_payload_selectors
       ga_set_stack_variable_address guest_payload_cs guest_payload_ss
       regs rflags set_rflags].
  split; [reflexivity |]. split; [reflexivity |].
  apply payload_rflags_bits.
Qed.

(** ** Theorems: initialization and rollback *)

Lemma free_fresh_page (va : Z) (heap : gset Z) :
  page_range va 1 ## heap -> free_page va (heap ∪ page_range va 1) = heap.
Proof. unfold free_page. cbn [page_range]. set_solver. Qed.

Lemma free_two_fresh_pages (v1 v2 : Z) (heap : gset Z) :
  page_range v1 1 ## heap ->
  page_range v2 1 ## heap ∪ page_range v1 1 ->
  free_page v2 (free_page v1 (heap ∪ page_range v1 1 ∪ page_range v2 1)) = heap.
Proof. unfold free_page. cbn [page_range]. set_solver. Qed.

Lemma neg_errno_nonzero (e : positive) : (Z.neg e =? 0) = false.
Proof. reflexivity. Qed.

(** Run the allocation tests of an initializer in hypothesis [H]. *)
Ltac step_init H :=
  repeat first
    [ progress (cbn -[Z.eqb free_page union page_range kontainer_idt_loop] in H)
    | rewrite Z.eqb_refl in H
    | rewrite neg_errno_nonzero in H ].

Lemma kontainer_init_rollback (kkm_trap_entry : Z) (o1 o2 o3 : alloc_outcome)
    (page0 : list gate_struct) (k : kkm) (heap : gset Z) :
  kkm_fresh k ->
  alloc_fresh o1 1 heap ->
  alloc_fresh o2 1 (heap_after o1 1 heap) ->
  alloc_fresh o3 1 (heap_after o2 1 (heap_after o1 1 heap)) ->
  forall ret_val k' heap',
    kkm_kontainer_init kkm_trap_entry o1 o2 o3 page0 k heap = (ret_val, k', heap') ->
    ret_val <> 0 ->
    heap' = heap
    /\ guest_kernel_page k' = 0 /\ guest_kernel k' = 0
    /\ guest_payload_page k' = 0 /\ guest_payload k' = 0
    /\ idt_page k' = 0 /\ idt k' = 0.
Proof.
  intros (F1 & F2 & F3 & F4 & F5 & F6) H1 H2 H3 ret_val k' heap' Hinit Hret.
  destruct k as [gkp gk gkpa gpp gp gppa ip iv it ms]. cbn in F1, F2, F3, F4, F5, F6.
  subst gkp gk gpp gp ip iv.
  unfold kkm_kontainer_init, kkm_kontainer_cleanup, kkm_mm_allocate_page,
    kkm_mm_allocate_pages in Hinit.
  destruct o1 as [e1 [] | p1 v1 a1].
  1, 2: step_init Hinit; injection Hinit as <- <- <-; repeat split.
  cbn in H1. destruct H1 as (Hp1 & Hv1 & Hd1). apply Z.eqb_neq in Hp1.
  cbn [heap_after] in H2, H3.
  destruct o2 as [e2 [] | p2 v2 a2].
  1, 2: step_init Hinit; rewrite Hp1 in Hinit; step_init Hinit;
    injection Hinit as <- <- <-;
    (split; [apply free_fresh_page; exact Hd1 | repeat split]).
  cbn in H2. destruct H2 as (Hp2 & Hv2 & Hd2). apply Z.eqb_neq in Hp2.
  cbn [heap_after] in H3.
  destruct o3 as [e3 [] | p3 v3 a3].
  1, 2: step_init Hinit; rewrite Hp1 in Hinit; step_init Hinit;
    rewrite Hp2 in Hinit; step_init Hinit;
    injection Hinit as <- <- <-;
    (split; [apply free_two_fresh_pages; assumption | repeat split]).
  step_init Hinit. congruence.
Qed.

Lemma kontext_init_rollback (virt_to_phys : Z -> Z)
    (init_redzone : kkm_guest_area -> kkm_guest_area)
    (kontext_addr : Z) (o : alloc_outcome) (ga0 : kkm_guest_area)
    (k : kkm_kontext) (heap : gset Z) :
  kontext_fresh k ->
  forall ret_val k' heap',
    kkm_kontext_init virt_to_phys init_redzone kontext_addr o ga0 k heap
      = (ret_val, k', heap') ->
    ret_val <> 0 ->
    heap' = heap /\ guest_area_page k' = 0 /\ guest_area k' = 0.
Proof.
  intros (F1 & F2) ret_val k' heap' Hinit Hret.
  destruct k as [kk gap gav pa0 pa1 g r d]. cbn in F1, F2. subst gap gav.
  unfold kkm_kontext_init, kkm_kontext_cleanup, kkm_mm_allocate_pages in Hinit.
  destruct o as [e [] | p v a].
  1, 2: step_init Hinit; injection Hinit as <- <- <-; repeat split.
  step_init Hinit. congruence.
Qed.

Lemma page_range_fresh_empty (va : Z) (n : nat) : page_range va n ## (∅ : gset Z).
Proof. apply disjoint_empty_r. Qed.

(** C9, as the code has it: when an initializer of a fresh kontainer or
    kontext returns nonzero, the pages it obtained during the call are
    free again and the page-pointer and virtual-address fields are
    [NULL]/[0]. *)
Theorem init_failure_rolls_back :
  (forall (kkm_trap_entry : Z) (o1 o2 o3 : alloc_outcome)
          (page0 : list gate_struct) (k : kkm) (heap : gset Z)
          (ret_val : Z) (k' : kkm) (heap' : gset Z),
      kkm_fresh k ->
      alloc_fresh o1 1 heap ->
      alloc_fresh o2 1 (heap_after o1 1 heap) ->
      alloc_fresh o3 1 (heap_after o2 1 (heap_after o1 1 heap)) ->
      kkm_kontainer_init kkm_trap_entry o1 o2 o3 page0 k heap
        = (ret_val, k', heap') ->
      ret_val <> 0 ->
      heap' = heap
      /\ guest_kernel_page k' = 0 /\ guest_kernel k' = 0
      /\ guest_payload_page k' = 0 /\ guest_payload k' = 0
      /\ idt_page k' = 0 /\ idt k' = 0)
  /\ (forall (virt_to_phys : Z -> Z)
             (init_redzone : kkm_guest_area -> kkm_guest_area)
             (kontext_addr : Z) (o : alloc_outcome) (ga0 : kkm_guest_area)
             (k : kkm_kontext) (heap : gset Z)
             (ret_val : Z) (k' : kkm_kontext) (heap' : gset Z),
      kontext_fresh k ->
      kkm_kontext_init virt_to_phys init_redzone kontext_addr o ga0 k heap
        = (ret_val, k', heap') ->
      ret_val <> 0 ->
      heap' = heap /\ guest_area_page k' = 0 /\ guest_area k' = 0).
Proof.
  split.
  - intros te o1 o2 o3 page0 k heap ret_val k' heap' Hk H1 H2 H3 Hinit Hret.
    exact (kontainer_init_rollback te o1 o2 o3 page0 k heap Hk H1 H2 H3
             ret_val k' heap' Hinit Hret).
  - intros v2p rz ka o ga0 k heap ret_val k' heap' Hk Hinit Hret.
    exact (kontext_init_rollback v2p rz ka o ga0 k heap Hk
             ret_val k' heap' Hinit Hret).
Qed.

Lemma init_failure_rolls_back_witness :
  (exists k',
     kkm_kontainer_init 0xffffffffc0003000 example_alloc (AllocFail 12 false)
       (AllocFail 12 false) [] example_kkm ∅ = (-12, k', ∅)
     /\ guest_kernel_page k' = 0 /\ guest_kernel k' = 0)
  /\ (exists k',
     kkm_kontext_init (fun va => va - 0xffff888000000000) (fun g => g)
       0xffff888002000000 (AllocFail 12 false) (example_ga 0 0 0 0 0 0)
       (example_kontext (example_ga 0 0 0 0 0 0)) ∅ = (-12, k', ∅)
     /\ guest_area_page k' = 0 /\ guest_area k' = 0).
Proof.
  split.
  - destruct (kkm_kontainer_init 0xffffffffc0003000 example_alloc (AllocFail 12 false)
                (AllocFail 12 false) [] example_kkm ∅) as [[ret_val k'] heap'] eqn:E.
    assert (Hret : ret_val = -12).
    { apply (f_equal (fun r => fst (fst r))) in E. vm_compute in E.
      symmetry. exact E. }
    assert (Hfresh : kkm_fresh example_kkm) by (repeat split).
    assert (H1 : alloc_fresh example_alloc 1 ∅).
    { split; [vm_compute; discriminate |].
      split; [vm_compute; discriminate | apply page_range_fresh_empty]. }
    destruct (proj1 init_failure_rolls_back 0xffffffffc0003000 example_alloc
                (AllocFail 12 false) (AllocFail 12 false) [] example_kkm ∅ ret_val k' heap'
                Hfresh H1 I I E ltac:(lia))
      as (Hheap & Hp & Hv & _).
    exists k'. rewrite Hret, Hheap. split; [reflexivity |]. split; assumption.
  - destruct (kkm_kontext_init (fun va => va - 0xffff888000000000) (fun g => g)
                0xffff888002000000 (AllocFail 12 false) (example_ga 0 0 0 0 0 0)
                (example_kontext (example_ga 0 0 0 0 0 0)) ∅)
      as [[ret_val k'] heap'] eqn:E.
    assert (Hret : ret_val = -12).
    { apply (f_equal (fun r => fst (fst r))) in E. vm_compute in E.
      symmetry. exact E. }
    destruct (proj2 init_failure_rolls_back (fun va => va - 0xffff888000000000)
                (fun g => g) 0xffff888002000000 (AllocFail 12 false)
                (example_ga 0 0 0 0 0 0)
                (example_kontext (example_ga 0 0 0 0 0 0)) ∅ ret_val k' heap'
                ltac:(split; reflexivity) E ltac:(lia))
      as (Hheap & Hp & Hv).
    exists k'. rewrite Hret, Hheap. split; [reflexivity |]. split; assumption.
Defined.

(** C9 as worded fails: after the second allocation of
    [kkm_kontainer_init] fails, the physical address of the first page,
    which has been freed, is still in [guest_kernel_pa]. *)
Lemma kontainer_init_keeps_physical_address :
  kkm_fresh example_kkm
  /\ fst (fst (kkm_kontainer_init 0xffffffffc0003000 example_alloc (AllocFail 12 false)
                 (AllocFail 12 false) [] example_kkm ∅)) = -12
  /\ guest_kernel_pa
       (snd (fst (kkm_kontainer_init 0xffffffffc0003000 example_alloc
                    (AllocFail 12 false) (AllocFail 12 false) [] example_kkm ∅)))
     = 0x1000000
  /\ guest_kernel_pa
       (snd (fst (kkm_kontainer_init 0xffffffffc0003000 example_alloc
                    (AllocFail 12 false) (AllocFail 12 false) [] example_kkm ∅)))
     <> 0.
Proof.
  split; [repeat split |].
  split; [vm_compute; reflexivity |].
  assert (E : guest_kernel_pa
       (snd (fst (kkm_kontainer_init 0xffffffffc0003000 example_alloc
                    (AllocFail 12 false) (AllocFail 12 false) [] example_kkm ∅)))
     = 0x1000000) by (vm_compute; reflexivity).
  split; [exact E | rewrite E; discriminate].
Qed.

(** ** Theorems: guest interrupt-descriptor table *)

Lemma fill_gates_length (n : nat) :
  forall (i : nat) (cs : Z) (ifp : list Z) (gs : list gate_struct),
    length (Idt.fill_gates n i cs ifp gs) = length gs.
Proof.
  induction n as [| n IH]; intros i cs ifp gs; cbn [Idt.fill_gates].
  - reflexivity.
  - rewrite IH. apply length_insert.
Qed.

(** After the loop, the entries it went over hold the gate of their own
    vector and the others are as before. *)
Lemma fill_gates_lookup (n : nat) :
  forall (i : nat) (cs : Z) (ifp : list Z) (gs : list gate_struct) (j : nat),
    (i + n <= length gs)%nat ->
    Idt.fill_gates n i cs ifp gs !! j =
      if decide (i <= j < i + n)%nat then Some (Idt.gate_for cs ifp j) else gs !! j.
Proof.
  induction n as [| n IH]; intros i cs ifp gs j Hlen; cbn [Idt.fill_gates].
  - case_decide; [lia | reflexivity].
  - rewrite IH by (rewrite length_insert; lia).
    destruct (decide (j = i)) as [-> | Hne].
    + rewrite list_lookup_insert_eq by lia.
      repeat case_decide; try lia; reflexivity.
    + rewrite list_lookup_insert_ne by lia.
      repeat case_decide; try lia; reflexivity.
Qed.

Lemma gate_for_fields (cs : Z) (ifp : list Z) (i : nat) :
  bits_p (Idt.gate_for cs ifp i) = 1
  /\ bits_type (Idt.gate_for cs ifp i) = GATE_INTERRUPT
  /\ segment (Idt.gate_for cs ifp i) = __KERNEL_CS
  /\ bits_dpl (Idt.gate_for cs ifp i)
       = (if decide (i = 3 \/ i = 4)%nat then 3 else 0).
Proof.
  repeat (split; [reflexivity |]).
  unfold Idt.gate_for. cbn [bits_dpl].
  unfold X86_TRAP_BP, X86_TRAP_OF.
  destruct (Z.eqb_spec (Z.of_nat i) 3) as [E3 | E3];
    destruct (Z.eqb_spec (Z.of_nat i) 4) as [E4 | E4];
    case_decide; cbn; try reflexivity; lia.
Qed.

(** C10: once [kkm_idt_descr_init] has gone through, each of the 256
    gates is a present interrupt gate on the kernel code segment; its
    privilege level is 3 for vectors 3 and 4 and 0 for every other vector,
    so user-mode code can raise exactly those two by software. *)
Theorem idt_gates_privilege (e : Idt.env) (p v a : Z)
    (mem0 : list gate_struct) (intr_function_pointers : list Z)
    (idt_entry : Idt.kkm_idt_entry) (heap : gset Z) :
  Idt.intr_code_len e < Idt.KKM_KX_INTR_CODE_SIZE e ->
  Idt.entry_code_len e < Idt.KKM_KX_ENTRY_CODE_SIZE e ->
  length mem0 = NR_VECTORS ->
  exists idt_entry' ifp' heap',
    Idt.kkm_idt_descr_init e (AllocOk p v a) mem0 intr_function_pointers
      idt_entry heap = (0, idt_entry', ifp', heap')
    /\ length (Idt.gates idt_entry') = 256%nat
    /\ forall i : nat, (i < 256)%nat ->
         exists g,
           Idt.gates idt_entry' !! i = Some g
           /\ bits_p g = 1
           /\ bits_type g = GATE_INTERRUPT
           /\ segment g = __KERNEL_CS
           /\ bits_dpl g = (if decide (i = 3 \/ i = 4)%nat then 3 else 0)
           /\ (Idt.user_raisable g = true <-> (i = 3 \/ i = 4)%nat).
Proof.
  intros Hintr Hentry Hlen.
  unfold Idt.kkm_idt_descr_init.
  replace (Idt.KKM_KX_INTR_CODE_SIZE e <=? Idt.intr_code_len e) with false
    by zb_false.
  replace (Idt.KKM_KX_ENTRY_CODE_SIZE e <=? Idt.entry_code_len e) with false
    by zb_false.
  cbn [kkm_mm_allocate_pages negb Z.eqb].
  do 3 eexists. split; [reflexivity |].
  cbn [Idt.gates]. split.
  - rewrite fill_gates_length. exact Hlen.
  - intros i Hi.
    exists (Idt.gate_for (Idt.KKM_IDT_CODE_START_VA e)
              (Idt.replace_non_standard_handlers (Idt.entry_stubs e)
                 intr_function_pointers) i).
    split.
    + rewrite fill_gates_lookup by (rewrite Hlen; unfold NR_VECTORS; lia).
      case_decide; [reflexivity | unfold NR_VECTORS in *; lia].
    + destruct (gate_for_fields (Idt.KKM_IDT_CODE_START_VA e)
                  (Idt.replace_non_standard_handlers (Idt.entry_stubs e)
                     intr_function_pointers) i) as (Hp & Ht & Hs & Hd).
      repeat (split; [assumption |]).
      unfold Idt.user_raisable. rewrite Hd.
      case_decide as Hv.
      * split; intros _; [exact Hv | reflexivity].
      * split; intros H'; [discriminate H' | contradiction].
Qed.

Lemma idt_gates_privilege_witness :
  exists idt_entry' ifp' heap',
    Idt.kkm_idt_descr_init example_env example_alloc (replicate 256 zero_gate)
      example_intr_function_pointers example_idt_entry ∅
      = (0, idt_entry', ifp', heap')
    /\ (exists g, Idt.gates idt_entry' !! 3%nat = Some g /\ bits_dpl g = 3)
    /\ (exists g, Idt.gates idt_entry' !! 14%nat = Some g /\ bits_dpl g = 0).
Proof.
  destruct (idt_gates_privilege example_env
              0xffffea0000040000 0xffff888001000000 0x1000000
              (replicate 256 zero_gate) example_intr_function_pointers
              example_idt_entry ∅
              ltac:(simpl; lia) ltac:(simpl; lia) eq_refl)
    as (idt_entry' & ifp' & heap' & Hinit & _ & Hgates).
  exists idt_entry', ifp', heap'. split; [exact Hinit |]. split.
  - destruct (Hgates 3%nat ltac:(lia)) as (g & Hg & _ & _ & _ & Hdpl & _).
    exists g. split; [exact Hg | exact Hdpl].
  - destruct (Hgates 14%nat ltac:(lia)) as (g & Hg & _ & _ & _ & Hdpl & _).
    exists g. split; [exact Hg | exact Hdpl].
Defined.

(** * Further properties of the code *)

(** ** Address translator *)

Lemma translate_low (k : kkm) (a : Z) :
  in_low_window a ->
  kkm_guest_va_to_monitor_va k a = (true, KKM_KM_USER_MEM_BASE + a).
Proof.
  unfold in_low_window, kkm_guest_va_to_monitor_va. kkm_consts. intros Ha.
  replace (0x200000 <=? a) with true by zb_true.
  replace (a <? 0x8000000000) with true by zb_true.
  simpl. rewrite wrap64_small by lia. reflexivity.
Qed.

Lemma translate_high (k : kkm) (a : Z) :
  in_high_window a ->
  kkm_guest_va_to_monitor_va k a
    = (true, KKM_KM_USER_MEM_BASE + (a - KKM_GUEST_VA_OFFSET)).
Proof.
  unfold in_high_window, kkm_guest_va_to_monitor_va. kkm_consts. intros Ha.
  replace (a <? 0x8000000000) with false by zb_false.
  rewrite andb_false_r.
  replace (0x7f8000000000 <=? a) with true by zb_true.
  replace (a <? 0x7fffffe00000) with true by zb_true.
  simpl. rewrite (wrap64_small (a - _)) by lia.
  rewrite wrap64_small by lia. reflexivity.
Qed.

(** X1: an address of either linear window is translated into the
    monitor window [[KKM_KM_USER_MEM_BASE, KKM_KM_USER_MEM_BASE + 512 GiB)],
    which lies below [2^47], and keeps its offset inside its 2 MiB
    block. *)
Theorem translate_linear_in_monitor_window (k : kkm) (a : Z) :
  in_low_window a \/ in_high_window a ->
  exists m,
    kkm_guest_va_to_monitor_va k a = (true, m)
    /\ KKM_KM_USER_MEM_BASE <= m < KKM_KM_USER_MEM_BASE + KKM_GUEST_MAX_PHYS_MEM
    /\ m < 2 ^ 47
    /\ m mod (2 * KKM_MIB) = a mod (2 * KKM_MIB).
Proof.
  intros [Ha | Ha].
  - rewrite (translate_low k a Ha). eexists. split; [reflexivity |].
    unfold in_low_window in Ha. kkm_consts.
    change (2 ^ 47) with 0x800000000000.
    split; [lia |]. split; [lia |].
    replace (0x100000000000 + a) with (a + 0x800000 * 0x200000) by lia.
    apply Z_mod_plus_full.
  - rewrite (translate_high k a Ha). eexists. split; [reflexivity |].
    unfold in_high_window in Ha. kkm_consts.
    change (2 ^ 47) with 0x800000000000.
    split; [lia |]. split; [lia |].
    replace (0x100000000000 + (a - 0x7f8000000000))
      with (a + (- 0x37c0000) * 0x200000) by lia.
    apply Z_mod_plus_full.
Qed.

Lemma translate_linear_in_monitor_window_witness :
  exists m,
    kkm_guest_va_to_monitor_va example_kkm 0x7f8000401234 = (true, m)
    /\ m mod (2 * KKM_MIB) = 0x7f8000401234 mod (2 * KKM_MIB).
Proof.
  destruct (translate_linear_in_monitor_window example_kkm 0x7f8000401234
              ltac:(right; unfold in_high_window; kkm_consts; lia))
    as (m & Hm & _ & _ & Hoff).
  exists m. split; [exact Hm | exact Hoff].
Defined.

(** X2: the high window mirrors the low one: a high address whose
    distance from [KKM_GUEST_VA_OFFSET] is at least 2 MiB is translated to
    the same monitor address as the low address at that distance. *)
Theorem translate_high_mirrors_low (k : kkm) (a : Z) :
  in_high_window a ->
  KKM_GUEST_MEM_START_VA <= a - KKM_GUEST_VA_OFFSET ->
  kkm_guest_va_to_monitor_va k a
    = kkm_guest_va_to_monitor_va k (a - KKM_GUEST_VA_OFFSET).
Proof.
  intros Ha Hd. rewrite (translate_high k a Ha).
  rewrite translate_low; [reflexivity |].
  unfold in_high_window in Ha. unfold in_low_window. kkm_consts. lia.
Qed.

Lemma translate_high_mirrors_low_witness :
  kkm_guest_va_to_monitor_va example_kkm 0x7f8000401000
    = kkm_guest_va_to_monitor_va example_kkm (0x7f8000401000 - KKM_GUEST_VA_OFFSET).
Proof.
  apply translate_high_mirrors_low.
  - unfold in_high_window. kkm_consts. lia.
  - kkm_consts. lia.
Defined.

(** X3: whatever the slot table holds, no address below 2 MiB, between
    the two linear windows, or between the top of the high window and the
    VDSO base is translated, and the failing call leaves [0] in
    [*monitor_va]. *)
Theorem translate_rejects_gaps (k : kkm) (a : Z) :
  a < KKM_GUEST_MEM_START_VA
  \/ KKM_GUEST_MAX_PHYS_MEM <= a < KKM_GUEST_VA_OFFSET
  \/ KKM_GUEST_MEM_TOP_VA <= a < KKM_GUEST_VVAR_VDSO_BASE_VA ->
  kkm_guest_va_to_monitor_va k a = (false, 0).
Proof.
  intros Ha. unfold kkm_guest_va_to_monitor_va.
  assert (H1 : (KKM_GUEST_MEM_START_VA <=? a) && (a <? KKM_GUEST_MAX_PHYS_MEM)
               = false).
  { apply andb_false_iff. kkm_consts.
    destruct Ha as [Ha | [Ha | Ha]];
      [left; apply Z.leb_gt | right; apply Z.ltb_ge | right; apply Z.ltb_ge]; lia. }
  assert (H2 : (KKM_GUEST_VA_OFFSET <=? a) && (a <? KKM_GUEST_MEM_TOP_VA) = false).
  { apply andb_false_iff. kkm_consts.
    destruct Ha as [Ha | [Ha | Ha]];
      [left; apply Z.leb_gt | left; apply Z.leb_gt | right; apply Z.ltb_ge]; lia. }
  rewrite H1, H2.
  destruct (mem_slot k !! KKM_KM_RSRV_VDSOSLOT) as [slot |]; [| reflexivity].
  replace (KKM_GUEST_VVAR_VDSO_BASE_VA <=? a) with false
    by (kkm_consts; zb_false).
  rewrite andb_false_r. reflexivity.
Qed.

Lemma translate_rejects_gaps_witness :
  kkm_guest_va_to_monitor_va (kkm_with_vdso true 0x7f1234560000 0xFFFFFFFFFFFFFFFF)
    0x7fffffe80000 = (false, 0).
Proof.
  apply translate_rejects_gaps. right. right. kkm_consts. lia.
Defined.

(** ** Trap emulators *)

Lemma lor_shifted_byte (b y : Z) :
  0 <= b < 256 -> Z.lor b (y * 256) = b + y * 256.
Proof.
  intros Hb.
  assert (Hland : Z.land b (y * 256) = 0).
  { apply Z.bits_inj'. intros n Hn. rewrite Z.land_spec, Z.bits_0.
    destruct (Z.lt_ge_cases n 8) as [Hlt | Hge].
    - change 256 with (2 ^ 8). rewrite Z.mul_pow2_bits_low by lia.
      apply andb_false_r.
    - replace (Z.testbit b n) with false; [reflexivity |]. symmetry.
      rewrite <- (Z.mod_small b (2 ^ 8)) by (change (2 ^ 8) with 256; lia).
      apply Z.mod_pow2_bits_high. lia. }
  rewrite Z.add_nocarry_lxor by exact Hland.
  symmetry. apply Z.lxor_lor. exact Hland.
Qed.

Lemma le_combine_bytes32 (v : Z) :
  0 <= v < 2 ^ 32 -> le_combine (le_bytes32 v) = v.
Proof.
  intros Hv. change (2 ^ 32) with 4294967296 in Hv.
  unfold le_bytes32. cbn [le_combine].
  change 255 with (Z.ones 8).
  rewrite !Z.land_ones, !Z.shiftr_div_pow2, !Z.shiftl_mul_pow2 by lia.
  change (2 ^ 8) with 256. change (2 ^ 16) with 65536.
  change (2 ^ 24) with 16777216.
  rewrite Z.mul_0_l, Z.lor_0_r.
  pose proof (Z.mod_pos_bound v 256 ltac:(lia)).
  pose proof (Z.mod_pos_bound (v / 256) 256 ltac:(lia)).
  pose proof (Z.mod_pos_bound (v / 65536) 256 ltac:(lia)).
  pose proof (Z.mod_pos_bound (v / 16777216) 256 ltac:(lia)).
  rewrite !lor_shifted_byte by lia.
  Z.to_euclidean_division_equations. lia.
Qed.

Section EmulatorProperties.

Variable KKM_OUT_OPCODE : Z.
Variable KKM_KONTEXT_FAULT_PROCESS_DONE : Z.


Lemma copy_from_user_byte_umem (addr : Z) (st : kstate) :
  st_umem (snd (copy_from_user_byte addr st)) = st_umem st.
Proof.
  unfold copy_from_user_byte. destruct (st_umem st !! addr); reflexivity.
Qed.

(** X4: for any register content, the emulated out reports the low 16
    bits of [rdx] as the port and data offset [PAGE_SIZE], stores the low
    32 bits of [rax] in the first four bytes of the data page and leaves
    the rest of the page, the other registers, the trap information and
    the monitor memory as they were. *)
Theorem general_protection_out_any_registers (st : kstate) (m : Z) (c : ucell) :
  let k := st_kontext st in
  kkm_guest_va_to_monitor_va (kontext_kkm k) (trap_rip (trap_info (ga k)))
    = (true, m) ->
  st_umem st !! m = Some c ->
  cell_val c = KKM_OUT_OPCODE ->
  exists st',
    kkm_process_general_protection KKM_OUT_OPCODE st = (0, st')
    /\ io_port (io (mmap_area0 (st_kontext st'))) = rdx (regs (ga k)) mod 2 ^ 16
    /\ io_data_offset (io (mmap_area0 (st_kontext st'))) = PAGE_SIZE
    /\ le_combine (take 4 (mmap_area1 (st_kontext st')))
         = rax (regs (ga k)) mod 2 ^ 32
    /\ drop 4 (mmap_area1 (st_kontext st')) = drop 4 (mmap_area1 k)
    /\ rax (regs (ga (st_kontext st'))) = rax (regs (ga k))
    /\ rdx (regs (ga (st_kontext st'))) = rdx (regs (ga k))
    /\ rflags (regs (ga (st_kontext st'))) = rflags (regs (ga k))
    /\ trap_info (ga (st_kontext st')) = trap_info (ga k)
    /\ st_umem st' = st_umem st.
Proof.
  intros k Htr Hm Hop. subst k.
  unfold kkm_process_general_protection. rewrite Htr.
  rewrite (copy_from_user_byte_mapped _ _ _ Hm). cbv iota beta.
  cbn [st_kontext kontext_set_ga ga ga_set_instruction_decode instruction_decode hd].
  rewrite Hop, Z.eqb_refl.
  eexists. split; [reflexivity |].
  cbn [st_kontext st_set_kontext kontext_set_ga kontext_set_data kontext_set_run
       mmap_area0 mmap_area1 io io_port io_data_offset ga ga_set_regs regs
       set_rip rax rdx rflags trap_info ga_set_instruction_decode st_umem].
  split.
  { change 0xFFFF with (Z.ones 16). apply Z.land_ones. lia. }
  split; [reflexivity |].
  split.
  { unfold store32_at0. change (take 4 (le_bytes32 ?x ++ ?l)) with (le_bytes32 x).
    apply le_combine_bytes32. unfold wrap32. apply Z.mod_pos_bound. lia. }
  repeat split.
Qed.



Lemma page_fault_umem (st : kstate) :
  st_umem (snd (kkm_process_page_fault KKM_KONTEXT_FAULT_PROCESS_DONE st))
    = st_umem st.
Proof.
  unfold kkm_process_page_fault.
  destruct (kkm_guest_va_to_monitor_va _ _) as [[] m]; [| reflexivity].
  destruct (_ =? X86_PF_USER); [| reflexivity].
  unfold copy_from_user_byte.
  destruct (st_umem st !! m) as [c |] eqn:Hm; [| reflexivity].
  cbv iota beta.
  destruct (_ =? X86_PF_WRITE); [| reflexivity].
  unfold copy_to_user_byte. cbn [st_umem]. rewrite Hm.
  destruct (cell_writable c) eqn:Hc; [| reflexivity].
  cbn. apply insert_id. rewrite Hm. destruct c as [v w]. cbn in Hc. subst w.
  reflexivity.
Qed.

Lemma general_protection_umem (st : kstate) :
  st_umem (snd (kkm_process_general_protection KKM_OUT_OPCODE st)) = st_umem st.
Proof.
  unfold kkm_process_general_protection.
  destruct (kkm_guest_va_to_monitor_va _ _) as [[] m]; [| reflexivity].
  unfold copy_from_user_byte.
  destruct (st_umem st !! m) as [c |]; [| reflexivity].
  cbv iota beta. destruct (_ =? KKM_OUT_OPCODE); reflexivity.
Qed.

(** X7: handling a trap never changes the content of the monitor memory:
    the only write the emulators issue puts back the byte just read. *)
Theorem process_intr_keeps_monitor_memory (st : kstate) :
  st_umem (snd (kkm_process_intr KKM_OUT_OPCODE KKM_KONTEXT_FAULT_PROCESS_DONE st))
    = st_umem st.
Proof.
  unfold kkm_process_intr.
  destruct (_ =? X86_TRAP_GP); [rewrite general_protection_umem; reflexivity |].
  destruct (_ =? X86_TRAP_PF); [rewrite page_fault_umem; reflexivity | reflexivity].
Qed.

Lemma general_protection_result (st : kstate) :
  let r := kkm_process_general_protection KKM_OUT_OPCODE st in
  (fst r = 0 \/ fst r = - EFAULT)
  /\ (mmap_area0 (st_kontext (snd r)) = mmap_area0 (st_kontext st)
      \/ (fst r = 0
          /\ rip (regs (ga (st_kontext (snd r))))
               = wrap64 (rip (regs (ga (st_kontext st))) + 1))).
Proof.
  unfold kkm_process_general_protection.
  destruct (kkm_guest_va_to_monitor_va _ _) as [[] m]; [| cbn; auto].
  unfold copy_from_user_byte.
  destruct (st_umem st !! m) as [c |]; [| cbn; auto].
  cbv iota beta. destruct (_ =? KKM_OUT_OPCODE); cbn; auto.
Qed.

Lemma page_fault_result (st : kstate) :
  let r := kkm_process_page_fault KKM_KONTEXT_FAULT_PROCESS_DONE st in
  (fst r = 0 \/ fst r = KKM_KONTEXT_FAULT_PROCESS_DONE \/ fst r = - EFAULT)
  /\ mmap_area0 (st_kontext (snd r)) = mmap_area0 (st_kontext st).
Proof.
  unfold kkm_process_page_fault.
  destruct (kkm_guest_va_to_monitor_va _ _) as [[] m]; [| cbn; auto].
  destruct (_ =? X86_PF_USER); [| cbn; auto].
  unfold copy_from_user_byte.
  destruct (st_umem st !! m) as [c |] eqn:Hm; [| cbn; auto].
  cbv iota beta.
  destruct (_ =? X86_PF_WRITE); [| cbn; auto].
  unfold copy_to_user_byte. cbn [st_umem]. rewrite Hm.
  destruct (cell_writable c); cbn; auto.
Qed.

(** X8: the dispatcher returns [0], the resume code, [-EFAULT] or
    [-EOPNOTSUPP] and nothing else; a general-protection trap is never
    answered with anything but [0] or [-EFAULT]; and the run record says
    [KKM_EXIT_IO] only when this very trap was a general-protection trap
    answered with [0] whose instruction pointer was moved on by one, so an
    I/O exit left from an earlier round is never reported again. *)
Theorem process_intr_outcomes (st : kstate) :
  let r := kkm_process_intr KKM_OUT_OPCODE KKM_KONTEXT_FAULT_PROCESS_DONE st in
  (fst r = 0 \/ fst r = KKM_KONTEXT_FAULT_PROCESS_DONE
   \/ fst r = - EFAULT \/ fst r = - EOPNOTSUPP)
  /\ (kkm_intr_no (ga (st_kontext st)) = X86_TRAP_GP ->
      fst r = 0 \/ fst r = - EFAULT)
  /\ (exit_reason (mmap_area0 (st_kontext (snd r))) = KKM_EXIT_IO ->
      kkm_intr_no (ga (st_kontext st)) = X86_TRAP_GP
      /\ fst r = 0
      /\ rip (regs (ga (st_kontext (snd r))))
           = wrap64 (rip (regs (ga (st_kontext st))) + 1)).
Proof.
  unfold kkm_process_intr.
  set (st1 := st_set_kontext _ st).
  assert (Hrun : exit_reason (mmap_area0 (st_kontext st1)) = KKM_EXIT_UNKNOWN)
    by reflexivity.
  destruct (Z.eqb_spec (kkm_intr_no (ga (st_kontext st))) X86_TRAP_GP) as [Egp | Egp].
  - destruct (general_protection_result st1) as (Hret & Hrec).
    split; [tauto |]. split; [intros _; exact Hret |].
    intros Hio. destruct Hrec as [Hsame | (Hzero & Hip)].
    + rewrite Hsame, Hrun in Hio. discriminate Hio.
    + split; [exact Egp |]. split; [exact Hzero | exact Hip].
  - destruct (Z.eqb_spec (kkm_intr_no (ga (st_kontext st))) X86_TRAP_PF) as [Epf | Epf].
    + destruct (page_fault_result st1) as (Hret & Hsame).
      split; [tauto |]. split; [intros E; contradiction |].
      intros Hio. rewrite Hsame, Hrun in Hio. discriminate Hio.
    + cbn [fst snd]. split; [auto |]. split; [intros E; contradiction |].
      intros Hio. rewrite Hrun in Hio. discriminate Hio.
Qed.

(** X9: whatever the guest does, the value [kkm_kontext_switch_kernel]
    hands to its caller is never the resume code. *)
Theorem switch_kernel_never_returns_resume (guest_run : kstate -> kstate)
    (fuel : nat) :
  forall (st : kstate) (ret_val : Z) (st' : kstate),
    kkm_kontext_switch_kernel KKM_OUT_OPCODE KKM_KONTEXT_FAULT_PROCESS_DONE
      guest_run fuel st = Some (ret_val, st') ->
    ret_val <> KKM_KONTEXT_FAULT_PROCESS_DONE.
Proof.
  induction fuel as [| fuel IH]; intros st ret_val st' H; cbn in H.
  - discriminate H.
  - destruct (kkm_process_intr _ _ _) as [r st3].
    destruct (Z.eqb_spec r KKM_KONTEXT_FAULT_PROCESS_DONE) as [E | E].
    + exact (IH _ _ _ H).
    + injection H as <- <-. exact E.
Qed.

(** X10: a general-protection trap ends the call after that one guest
    entry: the caller gets the emulator's answer, with the exit record,
    and the guest is not entered again. *)
Theorem general_protection_returns_to_caller (guest_run : kstate -> kstate)
    (fuel : nat) (st0 : kstate) :
  KKM_KONTEXT_FAULT_PROCESS_DONE <> 0 ->
  KKM_KONTEXT_FAULT_PROCESS_DONE <> - EFAULT ->
  kkm_intr_no (ga (st_kontext (guest_run (clear_intr_no st0)))) = X86_TRAP_GP ->
  kkm_kontext_switch_kernel KKM_OUT_OPCODE KKM_KONTEXT_FAULT_PROCESS_DONE
    guest_run (S fuel) st0
    = Some (kkm_process_intr KKM_OUT_OPCODE KKM_KONTEXT_FAULT_PROCESS_DONE
              (kkm_switch_to_host_kernel (guest_run (clear_intr_no st0)))).
Proof.
  intros H0 Hf Hgp. cbn [kkm_kontext_switch_kernel].
  set (st2 := kkm_switch_to_host_kernel _).
  assert (Hv : kkm_intr_no (ga (st_kontext st2)) = X86_TRAP_GP) by exact Hgp.
  assert (Hret : fst (kkm_process_intr KKM_OUT_OPCODE
                        KKM_KONTEXT_FAULT_PROCESS_DONE st2) = 0
                 \/ fst (kkm_process_intr KKM_OUT_OPCODE
                           KKM_KONTEXT_FAULT_PROCESS_DONE st2) = - EFAULT).
  { unfold kkm_process_intr. rewrite Hv, Z.eqb_refl.
    apply general_protection_result. }
  destruct (kkm_process_intr _ _ st2) as [r st3]. cbn [fst] in Hret.
  replace (r =? KKM_KONTEXT_FAULT_PROCESS_DONE) with false; [reflexivity |].
  symmetry. apply Z.eqb_neq. destruct Hret; subst r; auto.
Qed.

(** X11: as long as every trap of the guest is answered with the resume
    code, the call does not come back: no number of guest entries is
    enough. *)
Theorem switch_kernel_keeps_resuming (guest_run : kstate -> kstate) :
  (forall st,
     fst (kkm_process_intr KKM_OUT_OPCODE KKM_KONTEXT_FAULT_PROCESS_DONE
            (kkm_switch_to_host_kernel (guest_run (clear_intr_no st))))
       = KKM_KONTEXT_FAULT_PROCESS_DONE) ->
  forall (fuel : nat) (st : kstate),
    kkm_kontext_switch_kernel KKM_OUT_OPCODE KKM_KONTEXT_FAULT_PROCESS_DONE
      guest_run fuel st = None.
Proof.
  intros Hres fuel. induction fuel as [| fuel IH]; intros st; cbn.
  - reflexivity.
  - specialize (Hres st).
    destruct (kkm_process_intr _ _ _) as [r st3]. cbn [fst] in Hres.
    subst r. rewrite Z.eqb_refl. apply IH.
Qed.

End EmulatorProperties.

Lemma general_protection_out_any_registers_witness :
  exists st',
    kkm_process_general_protection 0xEF
      (example_state (example_ga 13 0 0 0x401000 0xAABBCCDD11223344 0x1F003F8)
         (example_umem 0xEF))
      = (0, st')
    /\ io_port (io (mmap_area0 (st_kontext st'))) = 0x1F003F8 mod 2 ^ 16
    /\ le_combine (take 4 (mmap_area1 (st_kontext st')))
         = 0xAABBCCDD11223344 mod 2 ^ 32.
Proof.
  destruct (general_protection_out_any_registers 0xEF
              (example_state (example_ga 13 0 0 0x401000 0xAABBCCDD11223344 0x1F003F8)
                 (example_umem 0xEF))
              (KKM_KM_USER_MEM_BASE + 0x401000) (mk_ucell 0xEF true)
              eq_refl eq_refl eq_refl)
    as (st' & Hret & Hport & _ & Hdata & _).
  exists st'. split; [exact Hret |]. split; [exact Hport | exact Hdata].
Defined.



Lemma switch_kernel_never_returns_resume_witness :
  exists ret_val st',
    kkm_kontext_switch_kernel 0xEF 1
      (fun _ => example_state (example_ga 13 0 0 0x401000 0x1234 0x3F8)
                  (example_umem 0xEF))
      3 (example_state (example_ga 0 0 0 0 0 0) (example_umem 0xEF))
      = Some (ret_val, st')
    /\ ret_val <> 1.
Proof.
  destruct (kkm_kontext_switch_kernel 0xEF 1
      (fun _ => example_state (example_ga 13 0 0 0x401000 0x1234 0x3F8)
                  (example_umem 0xEF))
      3 (example_state (example_ga 0 0 0 0 0 0) (example_umem 0xEF)))
    as [[ret_val st'] |] eqn:E; [| vm_compute in E; discriminate E].
  exists ret_val, st'. split; [reflexivity |].
  exact (switch_kernel_never_returns_resume 0xEF 1 _ 3 _ ret_val st' E).
Defined.

Lemma general_protection_returns_to_caller_witness :
  kkm_kontext_switch_kernel 0xEF 1
    (fun _ => example_state (example_ga 13 0 0 0x401000 0x1234 0x3F8)
                (example_umem 0xEF))
    5 (example_state (example_ga 0 0 0 0 0 0) (example_umem 0xEF))
  = Some (kkm_process_intr 0xEF 1
            (kkm_switch_to_host_kernel
               (example_state (example_ga 13 0 0 0x401000 0x1234 0x3F8)
                  (example_umem 0xEF)))).
Proof.
  apply (general_protection_returns_to_caller 0xEF 1
           (fun _ => example_state (example_ga 13 0 0 0x401000 0x1234 0x3F8)
                       (example_umem 0xEF))
           4 (example_state (example_ga 0 0 0 0 0 0) (example_umem 0xEF))).
  - lia.
  - unfold EFAULT. lia.
  - reflexivity.
Defined.

Lemma switch_kernel_keeps_resuming_witness :
  kkm_kontext_switch_kernel 0xEF 1
    (fun _ => example_state (example_ga 14 4 0x401000 0x400800 0 0)
                (example_umem 0x5a))
    7 (example_state (example_ga 0 0 0 0 0 0) (example_umem 0x5a))
  = None.
Proof.
  apply (switch_kernel_keeps_resuming 0xEF 1
           (fun _ => example_state (example_ga 14 4 0x401000 0x400800 0 0)
                       (example_umem 0x5a))).
  intros st. reflexivity.
Defined.

(** ** Payload entry and return to the host *)

Lemma lor_land_absorb (a b : Z) : Z.lor a (Z.land a b) = a.
Proof.
  apply Z.bits_inj'. intros n Hn. rewrite Z.lor_spec, Z.land_spec.
  destruct (Z.testbit a n), (Z.testbit b n); reflexivity.
Qed.

(** The fix-up of the saved flags in closed form. *)
Lemma payload_rflags_closed_form (f : Z) :
  payload_rflags f
    = Z.lor (Z.land f (not64 (Z.lor X86_EFLAGS_IF X86_EFLAGS_IOPL))) X86_EFLAGS_RF.
Proof.
  unfold payload_rflags.
  set (f1 := Z.land f (not64 X86_EFLAGS_IF)).
  assert (H64 : Z.land f1 (2 ^ 64 - 1) = f1).
  { subst f1. rewrite <- Z.land_assoc. reflexivity. }
  assert (E2 : (if Z.land f1 X86_EFLAGS_IOPL =? 0 then f1
                else Z.land f1 (not64 X86_EFLAGS_IOPL))
               = Z.land f1 (not64 X86_EFLAGS_IOPL)).
  { destruct (Z.eqb_spec (Z.land f1 X86_EFLAGS_IOPL) 0) as [E | _]; [| reflexivity].
    rewrite <- H64 at 1.
    change (2 ^ 64 - 1) with (Z.lor X86_EFLAGS_IOPL (not64 X86_EFLAGS_IOPL)).
    rewrite Z.land_lor_distr_r, E. apply Z.lor_0_l. }
  rewrite E2.
  set (f2 := Z.land f1 (not64 X86_EFLAGS_IOPL)).
  assert (E3 : (if Z.land f2 X86_EFLAGS_RF =? 0 then Z.lor f2 X86_EFLAGS_RF else f2)
               = Z.lor f2 X86_EFLAGS_RF).
  { destruct (Z.eqb_spec (Z.land f2 X86_EFLAGS_RF) 0) as [_ | E]; [reflexivity |].
    destruct (land_single_bit f2 16) as [H | H]; [lia | contradiction |].
    change (2 ^ 16) with X86_EFLAGS_RF in H.
    rewrite <- H. symmetry. apply lor_land_absorb. }
  rewrite E3. subst f2 f1. rewrite <- Z.land_assoc. reflexivity.
Qed.

(** X12: the flag fix-up touches only the interrupt flag, the I/O
    privilege level and the resume flag: every other bit of the 64-bit
    flags word is as the guest left it, and a second pass changes
    nothing. *)
Theorem payload_rflags_other_bits (f : Z) :
  (forall n, 0 <= n < 64 -> n <> 9 -> n <> 12 -> n <> 13 -> n <> 16 ->
     Z.testbit (payload_rflags f) n = Z.testbit f n)
  /\ 0 <= payload_rflags f < 2 ^ 64
  /\ payload_rflags (payload_rflags f) = payload_rflags f.
Proof.
  assert (Hbits : forall g n, 0 <= n ->
            Z.testbit (payload_rflags g) n
              = (Z.testbit g n && (n <? 64) && negb (n =? 9) && negb (n =? 12)
                 && negb (n =? 13)) || (n =? 16)).
  { intros g n Hn. rewrite payload_rflags_closed_form.
    rewrite Z.lor_spec, Z.land_spec. unfold not64. rewrite Z.lxor_spec.
    change (Z.lor X86_EFLAGS_IF X86_EFLAGS_IOPL)
      with (Z.lor (2 ^ 9) (Z.lor (2 ^ 12) (2 ^ 13))).
    change X86_EFLAGS_RF with (2 ^ 16).
    change (2 ^ 64 - 1) with (Z.ones 64).
    rewrite !Z.lor_spec, !Z.pow2_bits_eqb by lia.
    rewrite Z.testbit_ones_nonneg by lia.
    rewrite (Z.eqb_sym 9), (Z.eqb_sym 12), (Z.eqb_sym 13), (Z.eqb_sym 16).
    destruct (Z.testbit g n), (Z.ltb_spec n 64), (Z.eqb_spec n 9),
      (Z.eqb_spec n 12), (Z.eqb_spec n 13), (Z.eqb_spec n 16);
      try reflexivity; lia. }
  split; [| split].
  - intros n Hn H9 H12 H13 H16. rewrite Hbits by lia.
    destruct (Z.ltb_spec n 64), (Z.eqb_spec n 9), (Z.eqb_spec n 12),
      (Z.eqb_spec n 13), (Z.eqb_spec n 16); try lia;
      cbn; rewrite !andb_true_r, orb_false_r; reflexivity.
  - assert (Hnn : 0 <= payload_rflags f).
    { apply Z.bits_iff_nonneg_ex. exists 64. intros n Hn.
      rewrite Hbits by lia.
      destruct (Z.ltb_spec n 64), (Z.eqb_spec n 16); try lia;
        rewrite andb_false_r; reflexivity. }
    split; [exact Hnn |].
    destruct (Z.eq_dec (payload_rflags f) 0) as [-> | Hz]; [reflexivity |].
    apply Z.log2_lt_pow2; [lia |].
    destruct (Z.lt_ge_cases (Z.log2 (payload_rflags f)) 64) as [Hlt | Hge];
      [exact Hlt |].
    exfalso. pose proof (Z.bit_log2 (payload_rflags f) ltac:(lia)) as Hb.
    rewrite Hbits in Hb by lia.
    destruct (Z.ltb_spec (Z.log2 (payload_rflags f)) 64),
      (Z.eqb_spec (Z.log2 (payload_rflags f)) 16); try lia;
      rewrite andb_false_r in Hb; discriminate Hb.
  - apply Z.bits_inj'. intros n Hn. rewrite !Hbits by lia.
    destruct (Z.testbit f n), (Z.ltb_spec n 64), (Z.eqb_spec n 9),
      (Z.eqb_spec n 12), (Z.eqb_spec n 13), (Z.eqb_spec n 16);
      try reflexivity; lia.
Qed.

Lemma payload_rflags_other_bits_witness :
  Z.testbit (payload_rflags 0x3246) 6 = Z.testbit 0x3246 6
  /\ payload_rflags (payload_rflags 0x3246) = payload_rflags 0x3246.
Proof.
  destruct (payload_rflags_other_bits 0x3246) as (Hbits & _ & Hidem).
  split; [apply Hbits; lia | exact Hidem].
Defined.

(** X13: what the entry sequence saves, the return path restores.  The
    native state is saved by [kkm_kontext_switch_kernel], the privileged
    stack pointers by [kkm_guest_kernel_start_payload]; whatever the guest
    run leaves in the processor, [kkm_switch_to_host_kernel] puts back the
    data segment selectors, [fs] and [gs] with their bases, the syscall
    target and the three stack pointers of the TSS, loads the IDT
    descriptor recorded in the IDT singleton and hands the saved [cr3] to
    [kkm_switch_to_hk_asm].  [ss] is not taken from the saved value: it is
    set to [__KERNEL_DS].  The saved stack pointers and descriptor live in
    the guest area and are assumed untouched by the guest run. *)
Theorem host_state_round_trip
    (verify_redzone : kkm_guest_area -> bool) (sym : payload_symbols)
    (idt_entry : Idt.kkm_idt_entry) (k : kkm)
    (g0 g2 g3 : kkm_guest_area) (cpu0 cpu3 : host_cpu) (c2 : cpu_state) :
  let '(nk, spaces, g1, cpu1) := switch_kernel_save idt_entry k g0 cpu0 in
  kkm_guest_kernel_start_payload verify_redzone sym g1 (hc_cpu cpu1)
    = Some (g2, c2) ->
  native_save_tss_sp0 g3 = native_save_tss_sp0 g2 ->
  native_save_tss_sp1 g3 = native_save_tss_sp1 g2 ->
  native_save_tss_sp2 g3 = native_save_tss_sp2 g2 ->
  native_idt_desc g3 = native_idt_desc g2 ->
  let '(cpu4, cr3_arg) := switch_to_host_kernel_restore nk g3 cpu3 in
  seg_ds (hc_cpu cpu4) = seg_ds (hc_cpu cpu0)
  /\ seg_es (hc_cpu cpu4) = seg_es (hc_cpu cpu0)
  /\ seg_fs (hc_cpu cpu4) = seg_fs (hc_cpu cpu0)
  /\ msr_fs_base (hc_cpu cpu4) = msr_fs_base (hc_cpu cpu0)
  /\ msr_lstar (hc_cpu cpu4) = msr_lstar (hc_cpu cpu0)
  /\ tss_sp0 (hc_cpu cpu4) = tss_sp0 (hc_cpu cpu0)
  /\ tss_sp1 (hc_cpu cpu4) = tss_sp1 (hc_cpu cpu0)
  /\ tss_sp2 (hc_cpu cpu4) = tss_sp2 (hc_cpu cpu0)
  /\ hc_gs cpu4 = hc_gs cpu0
  /\ hc_gs_base cpu4 = hc_gs_base cpu0
  /\ hc_kernel_gs_base cpu4 = hc_kernel_gs_base cpu0
  /\ idtr (hc_cpu cpu4) = Idt.native_idt_desc idt_entry
  /\ hc_ss cpu4 = __KERNEL_DS
  /\ cr3_arg = hc_cr3 cpu0.
Proof.
  unfold switch_kernel_save, kkm_idt_get_desc, switch_to_host_kernel_restore.
  cbv zeta.
  intros Hstart H0 H1 H2 Hidt.
  unfold kkm_guest_kernel_start_payload in Hstart.
  destruct (verify_redzone _); [| discriminate Hstart].
  injection Hstart as <- _.
  cbn in H0, H1, H2, Hidt. cbn. rewrite H0, H1, H2, Hidt.
  destruct (Idt.native_idt_desc idt_entry). repeat split.
Qed.

Lemma host_state_round_trip_witness :
  exists g2 c2,
    kkm_guest_kernel_start_payload (fun _ => true) example_payload_symbols
      (snd (fst (switch_kernel_save example_installed_idt_entry example_kkm
                   (example_ga 0 0 0 0x401000 0 0) example_host_cpu)))
      (hc_cpu (snd (switch_kernel_save example_installed_idt_entry example_kkm
                      (example_ga 0 0 0 0x401000 0 0) example_host_cpu)))
      = Some (g2, c2)
    /\ tss_sp0 c2 = 0xffffff8000000100
    /\ tss_sp0 (hc_cpu (fst (switch_to_host_kernel_restore
                               (fst (fst (fst (switch_kernel_save
                                                 example_installed_idt_entry
                                                 example_kkm
                                                 (example_ga 0 0 0 0x401000 0 0)
                                                 example_host_cpu))))
                               g2 example_guest_cpu)))
       = tss_sp0 (hc_cpu example_host_cpu)
    /\ hc_gs_base (fst (switch_to_host_kernel_restore
                          (fst (fst (fst (switch_kernel_save
                                            example_installed_idt_entry
                                            example_kkm
                                            (example_ga 0 0 0 0x401000 0 0)
                                            example_host_cpu))))
                          g2 example_guest_cpu))
       = hc_gs_base example_host_cpu.
Proof.
  destruct (kkm_guest_kernel_start_payload (fun _ => true) example_payload_symbols
      (snd (fst (switch_kernel_save example_installed_idt_entry example_kkm
                   (example_ga 0 0 0 0x401000 0 0) example_host_cpu)))
      (hc_cpu (snd (switch_kernel_save example_installed_idt_entry example_kkm
                      (example_ga 0 0 0 0x401000 0 0) example_host_cpu))))
    as [[g2 c2] |] eqn:E; [| vm_compute in E; discriminate E].
  exists g2, c2. split; [reflexivity |].
  split; [vm_compute in E; injection E as _ <-; reflexivity |].
  pose proof (host_state_round_trip (fun _ => true) example_payload_symbols
                example_installed_idt_entry example_kkm
                (example_ga 0 0 0 0x401000 0 0) g2 g2
                example_host_cpu example_guest_cpu c2) as H.
  cbv beta iota zeta delta [switch_kernel_save kkm_idt_get_desc] in H.
  specialize (H E eq_refl eq_refl eq_refl eq_refl).
  cbv beta iota zeta delta [switch_to_host_kernel_restore] in H.
  destruct H as (_ & _ & _ & _ & _ & Hsp0 & _ & _ & _ & Hgs & _).
  split; [exact Hsp0 | exact Hgs].
Defined.

(** ** Kontainer and kontext set-up *)

Lemma offset_fields_round_trip (x : Z) :
  0 <= x < 2 ^ 64 ->
  Z.land x 0xFFFF + 2 ^ 16 * Z.land (Z.shiftr x 16) 0xFFFF
    + 2 ^ 32 * Z.land (Z.shiftr x 32) 0xFFFFFFFF = x.
Proof.
  intros Hx. change (2 ^ 64) with 18446744073709551616 in Hx.
  change 0xFFFF with (Z.ones 16). change 0xFFFFFFFF with (Z.ones 32).
  rewrite !Z.land_ones, !Z.shiftr_div_pow2 by lia.
  change (2 ^ 16) with 65536. change (2 ^ 32) with 4294967296.
  Z.to_euclidean_division_equations. lia.
Qed.

Lemma kontainer_idt_loop_length (n : nat) :
  forall (i : nat) (d : Z) (gd : list gate_struct),
    length (kontainer_idt_loop n i d gd) = length gd.
Proof.
  induction n as [| n IH]; intros i d gd; cbn [kontainer_idt_loop].
  - reflexivity.
  - rewrite IH. apply length_alter.
Qed.

Lemma kontainer_idt_loop_lookup (n : nat) :
  forall (i : nat) (d : Z) (gd : list gate_struct) (j : nat),
    kontainer_idt_loop n i d gd !! j =
      if decide (i <= j < i + n)%nat
      then kontainer_gate d <$> gd !! j
      else gd !! j.
Proof.
  induction n as [| n IH]; intros i d gd j; cbn [kontainer_idt_loop].
  - case_decide; [lia | reflexivity].
  - rewrite IH. destruct (decide (j = i)) as [-> | Hne].
    + rewrite list_lookup_alter_eq. repeat case_decide; try lia; reflexivity.
    + rewrite list_lookup_alter_ne by lia.
      repeat case_decide; try lia; reflexivity.
Qed.

(** X14: when the three allocations succeed, [kkm_kontainer_init] returns
    [0] with the three pages allocated and recorded, and every one of the
    256 gates of its table is a present interrupt gate of privilege level
    0 on the kernel code segment whose three offset fields together give
    the address of [kkm_trap_entry]; the [reserved] field of a gate is
    left as the page had it. *)
Theorem kontainer_init_success (kkm_trap_entry : Z)
    (p1 v1 a1 p2 v2 a2 p3 v3 a3 : Z)
    (page0 : list gate_struct) (k : kkm) (heap : gset Z) :
  0 <= kkm_trap_entry < 2 ^ 64 ->
  length page0 = IDT_ENTRIES ->
  exists k',
    kkm_kontainer_init kkm_trap_entry (AllocOk p1 v1 a1) (AllocOk p2 v2 a2)
      (AllocOk p3 v3 a3) page0 k heap
      = (0, k', heap ∪ page_range v1 1 ∪ page_range v2 1 ∪ page_range v3 1)
    /\ (guest_kernel_page k', guest_kernel k', guest_kernel_pa k') = (p1, v1, a1)
    /\ (guest_payload_page k', guest_payload k', guest_payload_pa k') = (p2, v2, a2)
    /\ (idt_page k', idt k') = (p3, v3)
    /\ mem_slot k' = mem_slot k
    /\ forall i : nat, (i < 256)%nat ->
         exists g old,
           idt_table k' !! i = Some g
           /\ page0 !! i = Some old
           /\ bits_p g = 1 /\ bits_type g = GATE_INTERRUPT /\ bits_dpl g = 0
           /\ segment g = __KERNEL_CS
           /\ gate_offset g = kkm_trap_entry
           /\ reserved g = reserved old.
Proof.
  intros Hte Hlen.
  unfold kkm_kontainer_init, kkm_mm_allocate_page, kkm_mm_allocate_pages.
  cbn -[kontainer_idt_loop page_range union].
  eexists. split; [reflexivity |].
  cbn -[kontainer_idt_loop].
  repeat (split; [reflexivity |]).
  intros i Hi.
  destruct (lookup_lt_is_Some_2 page0 i) as [old Hold];
    [rewrite Hlen; unfold IDT_ENTRIES; lia |].
  exists (kontainer_gate kkm_trap_entry old), old.
  split.
  { rewrite kontainer_idt_loop_lookup, Hold.
    case_decide; [reflexivity | unfold IDT_ENTRIES in *; lia]. }
  split; [exact Hold |].
  repeat (split; [reflexivity |]).
  split; [| reflexivity].
  unfold gate_offset, kontainer_gate. cbn [offset_low offset_middle offset_high].
  apply offset_fields_round_trip. exact Hte.
Qed.

Lemma kontainer_init_success_witness :
  exists k',
    kkm_kontainer_init 0xffffffffc0003000
      (AllocOk 0xffffea0000040000 0xffff888001000000 0x1000000)
      (AllocOk 0xffffea0000040040 0xffff888001001000 0x1001000)
      (AllocOk 0xffffea0000040080 0xffff888001002000 0x1002000)
      (replicate 256 zero_gate) example_kkm ∅
      = (0, k',
         ∅ ∪ page_range 0xffff888001000000 1 ∪ page_range 0xffff888001001000 1
           ∪ page_range 0xffff888001002000 1)
    /\ exists g, idt_table k' !! 200%nat = Some g
                 /\ gate_offset g = 0xffffffffc0003000.
Proof.
  destruct (kontainer_init_success 0xffffffffc0003000
              0xffffea0000040000 0xffff888001000000 0x1000000
              0xffffea0000040040 0xffff888001001000 0x1001000
              0xffffea0000040080 0xffff888001002000 0x1002000
              (replicate 256 zero_gate) example_kkm ∅
              ltac:(split; [lia | reflexivity]) eq_refl)
    as (k' & Hinit & _ & _ & _ & _ & Hgates).
  exists k'. split; [exact Hinit |].
  destruct (Hgates 200%nat ltac:(lia)) as (g & old & Hg & _ & _ & _ & _ & _ & Hoff & _).
  exists g. split; [exact Hg | exact Hoff].
Defined.

(** X15: [kkm_kontainer_cleanup] undoes a successful
    [kkm_kontainer_init]: the three pages are free again, the page
    pointers and virtual addresses are [NULL]/[0]; and cleaning up a
    second time changes nothing, so no page is freed twice. *)
Theorem kontainer_init_cleanup_round_trip (kkm_trap_entry : Z)
    (o1 o2 o3 : alloc_outcome) (page0 : list gate_struct)
    (k k' : kkm) (heap heap' : gset Z) :
  alloc_fresh o1 1 heap ->
  alloc_fresh o2 1 (heap_after o1 1 heap) ->
  alloc_fresh o3 1 (heap_after o2 1 (heap_after o1 1 heap)) ->
  kkm_kontainer_init kkm_trap_entry o1 o2 o3 page0 k heap = (0, k', heap') ->
  let '(k'', heap'') := kkm_kontainer_cleanup k' heap' in
  heap'' = heap
  /\ guest_kernel_page k'' = 0 /\ guest_kernel k'' = 0
  /\ guest_payload_page k'' = 0 /\ guest_payload k'' = 0
  /\ idt_page k'' = 0 /\ idt k'' = 0
  /\ kkm_kontainer_cleanup k'' heap'' = (k'', heap'').
Proof.
  intros H1 H2 H3 Hinit.
  unfold kkm_kontainer_init, kkm_mm_allocate_page, kkm_mm_allocate_pages in Hinit.
  destruct o1 as [e1 n1 | p1 v1 a1].
  { step_init Hinit. exfalso.
    destruct (kkm_kontainer_cleanup _ _) in Hinit. discriminate Hinit. }
  destruct H1 as (Hp1 & _ & Hd1). cbn [heap_after] in H2, H3.
  destruct o2 as [e2 n2 | p2 v2 a2].
  { step_init Hinit. exfalso.
    destruct (kkm_kontainer_cleanup _ _) in Hinit. discriminate Hinit. }
  destruct H2 as (Hp2 & _ & Hd2). cbn [heap_after] in H3.
  destruct o3 as [e3 n3 | p3 v3 a3].
  { step_init Hinit. exfalso.
    destruct (kkm_kontainer_cleanup _ _) in Hinit. discriminate Hinit. }
  destruct H3 as (Hp3 & _ & Hd3).
  step_init Hinit.
  apply pair_equal_spec in Hinit as [Hinit Hh].
  apply pair_equal_spec in Hinit as [_ Hk]. subst k' heap'.
  apply Z.eqb_neq in Hp1. apply Z.eqb_neq in Hp2. apply Z.eqb_neq in Hp3.
  unfold kkm_kontainer_cleanup.
  cbn -[Z.eqb free_page union page_range kontainer_idt_loop].
  rewrite Hp1. cbn -[Z.eqb free_page union page_range kontainer_idt_loop].
  rewrite Hp2. cbn -[Z.eqb free_page union page_range kontainer_idt_loop].
  rewrite Hp3. cbn -[free_page union page_range kontainer_idt_loop].
  split; [| repeat split].
  unfold free_page. cbn [page_range] in Hd1, Hd2, Hd3 |- *.
  clear - Hd1 Hd2 Hd3. set_solver.
Qed.

Lemma page_range_other_page (va other : Z) (heap : gset Z) :
  va <> other ->
  page_range va 1 ## heap ->
  page_range va 1 ## heap ∪ page_range other 1.
Proof. cbn [page_range]. set_solver. Qed.

Lemma kontainer_init_cleanup_round_trip_witness :
  snd (kkm_kontainer_cleanup
         (snd (fst (kkm_kontainer_init 0xffffffffc0003000
                      (AllocOk 0xffffea0000040000 0xffff888001000000 0x1000000)
                      (AllocOk 0xffffea0000040040 0xffff888001001000 0x1001000)
                      (AllocOk 0xffffea0000040080 0xffff888001002000 0x1002000)
                      (replicate 256 zero_gate) example_kkm ∅)))
         (snd (kkm_kontainer_init 0xffffffffc0003000
                 (AllocOk 0xffffea0000040000 0xffff888001000000 0x1000000)
                 (AllocOk 0xffffea0000040040 0xffff888001001000 0x1001000)
                 (AllocOk 0xffffea0000040080 0xffff888001002000 0x1002000)
                 (replicate 256 zero_gate) example_kkm ∅)))
  = ∅.
Proof.
  destruct (kkm_kontainer_init 0xffffffffc0003000
              (AllocOk 0xffffea0000040000 0xffff888001000000 0x1000000)
              (AllocOk 0xffffea0000040040 0xffff888001001000 0x1001000)
              (AllocOk 0xffffea0000040080 0xffff888001002000 0x1002000)
              (replicate 256 zero_gate) example_kkm ∅)
    as [[ret_val k'] heap'] eqn:E.
  assert (Hret : ret_val = 0).
  { apply (f_equal (fun r => fst (fst r))) in E. vm_compute in E.
    symmetry. exact E. }
  subst ret_val.
  pose proof (kontainer_init_cleanup_round_trip 0xffffffffc0003000
                (AllocOk 0xffffea0000040000 0xffff888001000000 0x1000000)
                (AllocOk 0xffffea0000040040 0xffff888001001000 0x1001000)
                (AllocOk 0xffffea0000040080 0xffff888001002000 0x1002000)
                (replicate 256 zero_gate) example_kkm k' ∅ heap') as H.
  cbn [fst snd].
  destruct (kkm_kontainer_cleanup k' heap') as [k'' heap''].
  apply H; [| | | exact E].
  - split; [lia |]. split; [lia | apply page_range_fresh_empty].
  - split; [lia |]. split; [lia |].
    apply page_range_other_page; [lia | apply page_range_fresh_empty].
  - split; [lia |]. split; [lia |].
    apply page_range_other_page; [lia |].
    apply page_range_other_page; [lia | apply page_range_fresh_empty].
Defined.

(** X16: a successful [kkm_kontext_init] allocates the two pages of the
    guest area, records the physical address of each and makes the guest
    area point back at its kontext and at itself.  [kkm_kontext_cleanup]
    then clears the page pointer and the virtual address, but its single
    [free_page] releases the first page only: the second page of the guest
    area stays allocated. *)
Theorem kontext_init_then_cleanup (virt_to_phys : Z -> Z)
    (init_redzone : kkm_guest_area -> kkm_guest_area)
    (kontext_addr p v a : Z) (ga0 : kkm_guest_area)
    (k : kkm_kontext) (heap : gset Z) :
  p <> 0 ->
  page_range v KKM_GUEST_AREA_PAGES ## heap ->
  exists k',
    kkm_kontext_init virt_to_phys init_redzone kontext_addr (AllocOk p v a)
      ga0 k heap = (0, k', heap ∪ page_range v KKM_GUEST_AREA_PAGES)
    /\ guest_area_page k' = p /\ guest_area k' = v
    /\ guest_area_page0_pa k' = virt_to_phys v
    /\ guest_area_page1_pa k' = virt_to_phys (wrap64 (v + PAGE_SIZE))
    /\ ga_kkm_kontext (ga k') = kontext_addr
    /\ guest_area_beg (ga k') = v
    /\ exists k'',
         kkm_kontext_cleanup k' (heap ∪ page_range v KKM_GUEST_AREA_PAGES)
           = (k'', heap ∪ page_range (v + PAGE_SIZE) 1)
         /\ guest_area_page k'' = 0 /\ guest_area k'' = 0.
Proof.
  intros Hp Hd.
  unfold kkm_kontext_init, kkm_mm_allocate_pages.
  cbn -[page_range union].
  eexists. split; [reflexivity |].
  cbn -[page_range union]. repeat (split; [reflexivity |]).
  unfold kkm_kontext_cleanup. cbn -[page_range union free_page].
  apply Z.eqb_neq in Hp. rewrite Hp.
  eexists. split.
  - apply pair_equal_spec. split; [reflexivity |].
    unfold free_page, KKM_GUEST_AREA_PAGES in *.
    cbn [page_range] in Hd |- *.
    assert (Hne : v + PAGE_SIZE <> v) by (unfold PAGE_SIZE; lia).
    clear - Hd Hne. set_solver.
  - split; reflexivity.
Qed.

Lemma kontext_init_then_cleanup_witness :
  exists k' k'',
    kkm_kontext_init (fun va => va - 0xffff888000000000) (fun g => g)
      0xffff888002000000
      (AllocOk 0xffffea0000040000 0xffff888001000000 0x1000000)
      (example_ga 0 0 0 0 0 0) (example_kontext (example_ga 0 0 0 0 0 0)) ∅
      = (0, k', ∅ ∪ page_range 0xffff888001000000 KKM_GUEST_AREA_PAGES)
    /\ guest_area_page1_pa k' = 0x1001000
    /\ kkm_kontext_cleanup k' (∅ ∪ page_range 0xffff888001000000 KKM_GUEST_AREA_PAGES)
       = (k'', ∅ ∪ page_range (0xffff888001000000 + PAGE_SIZE) 1).
Proof.
  destruct (kontext_init_then_cleanup (fun va => va - 0xffff888000000000)
              (fun g => g) 0xffff888002000000
              0xffffea0000040000 0xffff888001000000 0x1000000
              (example_ga 0 0 0 0 0 0) (example_kontext (example_ga 0 0 0 0 0 0)) ∅
              ltac:(lia) (page_range_fresh_empty _ _))
    as (k' & Hinit & _ & _ & _ & Hpa1 & _ & _ & k'' & Hclean & _).
  exists k', k''. split; [exact Hinit |]. split; [exact Hpa1 | exact Hclean].
Defined.

(** ** Guest IDT set-up, continued *)

(** X17: [kkm_idt_descr_init] gives up before touching anything when one
    of the two code blobs does not fit its area: it returns [-EINVAL]
    without asking for memory, whatever the allocator would have answered;
    and when the allocation fails it returns the allocator's error with
    the heap, the handler table, the gates and both descriptors as they
    were. *)
Theorem idt_descr_init_failures (e : Idt.env) (o : alloc_outcome)
    (mem0 : list gate_struct) (intr_function_pointers : list Z)
    (idt_entry : Idt.kkm_idt_entry) (heap : gset Z) :
  (Idt.KKM_KX_INTR_CODE_SIZE e <= Idt.intr_code_len e
   \/ Idt.KKM_KX_ENTRY_CODE_SIZE e <= Idt.entry_code_len e ->
   Idt.kkm_idt_descr_init e o mem0 intr_function_pointers idt_entry heap
     = (- EINVAL, idt_entry, intr_function_pointers, heap))
  /\ (forall errno nulls_page,
        Idt.intr_code_len e < Idt.KKM_KX_INTR_CODE_SIZE e ->
        Idt.entry_code_len e < Idt.KKM_KX_ENTRY_CODE_SIZE e ->
        o = AllocFail errno nulls_page ->
        exists idt_entry',
          Idt.kkm_idt_descr_init e o mem0 intr_function_pointers idt_entry heap
            = (Z.neg errno, idt_entry', intr_function_pointers, heap)
          /\ Idt.gates idt_entry' = Idt.gates idt_entry
          /\ Idt.native_idt_desc idt_entry' = Idt.native_idt_desc idt_entry
          /\ Idt.guest_idt_desc idt_entry' = Idt.guest_idt_desc idt_entry
          /\ Idt.va (Idt.idt idt_entry') = Idt.va (Idt.idt idt_entry)).
Proof.
  split.
  - intros H. unfold Idt.kkm_idt_descr_init.
    destruct (Z.leb_spec (Idt.KKM_KX_INTR_CODE_SIZE e) (Idt.intr_code_len e));
      [reflexivity |].
    destruct (Z.leb_spec (Idt.KKM_KX_ENTRY_CODE_SIZE e) (Idt.entry_code_len e));
      [reflexivity | lia].
  - intros errno nulls_page H1 H2 ->. unfold Idt.kkm_idt_descr_init.
    replace (Idt.KKM_KX_INTR_CODE_SIZE e <=? Idt.intr_code_len e) with false
      by zb_false.
    replace (Idt.KKM_KX_ENTRY_CODE_SIZE e <=? Idt.entry_code_len e) with false
      by zb_false.
    cbn. eexists. split; [reflexivity |]. repeat split.
Qed.

Lemma idt_descr_init_failures_witness :
  Idt.kkm_idt_descr_init
    (Idt.mk_env 0x1000 0x300 0x1000 0x800 0x1000 4 0xffffff0000001000
       (fun va => va - 0xffff888000000000)
       (mk_desc_ptr 0xfff 0xfffffe0000000000) 0xffffff0000000000 example_stubs)
    example_alloc (replicate 256 zero_gate) example_intr_function_pointers
    example_idt_entry ∅
  = (- EINVAL, example_idt_entry, example_intr_function_pointers, ∅)
  /\ exists idt_entry',
       Idt.kkm_idt_descr_init example_env (AllocFail 12 true)
         (replicate 256 zero_gate) example_intr_function_pointers
         example_idt_entry ∅
       = (-12, idt_entry', example_intr_function_pointers, ∅).
Proof.
  split.
  - apply (proj1 (idt_descr_init_failures _ _ _ _ _ _)). left. simpl. lia.
  - destruct (proj2 (idt_descr_init_failures example_env (AllocFail 12 true)
                       (replicate 256 zero_gate) example_intr_function_pointers
                       example_idt_entry ∅)
                12%positive true ltac:(simpl; lia) ltac:(simpl; lia) eq_refl)
      as (idt_entry' & H & _).
    exists idt_entry'. exact H.
Defined.

Lemma wrap64_sub_idemp (x y : Z) : wrap64 (wrap64 x - y) = wrap64 (x - y).
Proof. unfold wrap64. apply Zminus_mod_idemp_l. Qed.

Lemma wrap64_range (x : Z) : 0 <= wrap64 x < 2 ^ 64.
Proof. unfold wrap64. apply Z.mod_pos_bound. reflexivity. Qed.

(** X18: after a successful [kkm_idt_descr_init] the handler table holds
    the eight distinguished stubs at vectors 8, 10, 11, 12, 13, 14, 17 and
    30 and is unchanged elsewhere, and the offset fields of gate [i] give,
    in 64-bit arithmetic, [KKM_IDT_CODE_START_VA] plus the distance of
    handler [i] from handler 0: the gates address the relocated copy of
    the entry code, not the module image. *)
Theorem idt_gates_address_relocated_code (e : Idt.env) (p v a : Z)
    (mem0 : list gate_struct) (intr_function_pointers : list Z)
    (idt_entry : Idt.kkm_idt_entry) (heap : gset Z) :
  Idt.intr_code_len e < Idt.KKM_KX_INTR_CODE_SIZE e ->
  Idt.entry_code_len e < Idt.KKM_KX_ENTRY_CODE_SIZE e ->
  length mem0 = NR_VECTORS ->
  length intr_function_pointers = NR_VECTORS ->
  exists idt_entry' ifp' heap' base,
    Idt.kkm_idt_descr_init e (AllocOk p v a) mem0 intr_function_pointers
      idt_entry heap = (0, idt_entry', ifp', heap')
    /\ ifp' !! 0%nat = Some base
    /\ intr_function_pointers !! 0%nat = Some base
    /\ ifp' !! 8%nat = Some (Idt.kkm_intr_entry_double_fault (Idt.entry_stubs e))
    /\ ifp' !! 10%nat = Some (Idt.kkm_intr_entry_invalid_TSS (Idt.entry_stubs e))
    /\ ifp' !! 11%nat = Some (Idt.kkm_intr_entry_segment_np (Idt.entry_stubs e))
    /\ ifp' !! 12%nat = Some (Idt.kkm_intr_entry_ss_fault (Idt.entry_stubs e))
    /\ ifp' !! 13%nat
         = Some (Idt.kkm_intr_entry_general_protection (Idt.entry_stubs e))
    /\ ifp' !! 14%nat = Some (Idt.kkm_intr_entry_page_fault (Idt.entry_stubs e))
    /\ ifp' !! 17%nat
         = Some (Idt.kkm_intr_entry_alignment_check (Idt.entry_stubs e))
    /\ ifp' !! 30%nat
         = Some (Idt.kkm_intr_entry_security_exception (Idt.entry_stubs e))
    /\ (forall i : nat,
          i <> 8%nat -> i <> 10%nat -> i <> 11%nat -> i <> 12%nat ->
          i <> 13%nat -> i <> 14%nat -> i <> 17%nat -> i <> 30%nat ->
          ifp' !! i = intr_function_pointers !! i)
    /\ (forall i : nat, (i < 256)%nat ->
          exists g target,
            Idt.gates idt_entry' !! i = Some g
            /\ ifp' !! i = Some target
            /\ gate_offset g
                 = wrap64 (Idt.KKM_IDT_CODE_START_VA e + target - base)).
Proof.
  intros Hintr Hentry Hlen Hifp.
  destruct (lookup_lt_is_Some_2 intr_function_pointers 0%nat) as [base Hbase];
    [rewrite Hifp; unfold NR_VECTORS; lia |].
  unfold Idt.kkm_idt_descr_init.
  replace (Idt.KKM_KX_INTR_CODE_SIZE e <=? Idt.intr_code_len e) with false
    by zb_false.
  replace (Idt.KKM_KX_ENTRY_CODE_SIZE e <=? Idt.entry_code_len e) with false
    by zb_false.
  cbn [kkm_mm_allocate_pages negb Z.eqb].
  set (ifp' := Idt.replace_non_standard_handlers (Idt.entry_stubs e)
                 intr_function_pointers).
  assert (Hlen' : length ifp' = NR_VECTORS).
  { subst ifp'. unfold Idt.replace_non_standard_handlers.
    rewrite !length_insert. exact Hifp. }
  assert (Hother : forall i : nat,
            i <> 8%nat -> i <> 10%nat -> i <> 11%nat -> i <> 12%nat ->
            i <> 13%nat -> i <> 14%nat -> i <> 17%nat -> i <> 30%nat ->
            ifp' !! i = intr_function_pointers !! i).
  { intros i H8 H10 H11 H12 H13 H14 H17 H30. subst ifp'.
    unfold Idt.replace_non_standard_handlers.
    change (Z.to_nat X86_TRAP_DF) with 8%nat.
    change (Z.to_nat X86_TRAP_TS) with 10%nat.
    change (Z.to_nat X86_TRAP_NP) with 11%nat.
    change (Z.to_nat X86_TRAP_SS) with 12%nat.
    change (Z.to_nat X86_TRAP_GP) with 13%nat.
    change (Z.to_nat X86_TRAP_PF) with 14%nat.
    change (Z.to_nat X86_TRAP_AC) with 17%nat.
    change (Z.to_nat X86_TRAP_SE) with 30%nat.
    rewrite !list_lookup_insert_ne by lia. reflexivity. }
  do 3 eexists. exists base.
  split; [reflexivity |]. fold ifp'.
  split; [rewrite Hother by lia; exact Hbase |].
  split; [exact Hbase |].
  unfold NR_VECTORS in *.
  repeat match goal with
  | |- ifp' !! _ = Some _ /\ _ =>
      split;
      [ subst ifp'; unfold Idt.replace_non_standard_handlers;
        change (Z.to_nat X86_TRAP_DF) with 8%nat;
        change (Z.to_nat X86_TRAP_TS) with 10%nat;
        change (Z.to_nat X86_TRAP_NP) with 11%nat;
        change (Z.to_nat X86_TRAP_SS) with 12%nat;
        change (Z.to_nat X86_TRAP_GP) with 13%nat;
        change (Z.to_nat X86_TRAP_PF) with 14%nat;
        change (Z.to_nat X86_TRAP_AC) with 17%nat;
        change (Z.to_nat X86_TRAP_SE) with 30%nat;
        repeat (rewrite list_lookup_insert_ne by lia);
        apply list_lookup_insert_eq; rewrite ?length_insert; lia
      | ]
  end.
  split; [exact Hother |].
  intros i Hi. cbn [Idt.gates].
  destruct (lookup_lt_is_Some_2 ifp' i) as [target Htarget]; [lia |].
  exists (Idt.gate_for (Idt.KKM_IDT_CODE_START_VA e) ifp' i), target.
  split.
  { rewrite fill_gates_lookup by lia. case_decide; [reflexivity | lia]. }
  split; [exact Htarget |].
  unfold gate_offset, Idt.gate_for. cbn [offset_low offset_middle offset_high].
  rewrite Htarget, (Hother 0%nat) by lia. rewrite Hbase. cbn [default].
  rewrite offset_fields_round_trip by apply wrap64_range.
  apply wrap64_sub_idemp.
Qed.

Lemma idt_gates_address_relocated_code_witness :
  exists idt_entry' ifp' heap',
    Idt.kkm_idt_descr_init example_env example_alloc (replicate 256 zero_gate)
      example_intr_function_pointers example_idt_entry ∅
      = (0, idt_entry', ifp', heap')
    /\ ifp' !! 13%nat = Some 0xffffffffc0002080
    /\ exists g target,
         Idt.gates idt_entry' !! 13%nat = Some g
         /\ ifp' !! 13%nat = Some target
         /\ gate_offset g
              = wrap64 (Idt.KKM_IDT_CODE_START_VA example_env + target
                        - 0xffffffffc0001000).
Proof.
  destruct (idt_gates_address_relocated_code example_env
              0xffffea0000040000 0xffff888001000000 0x1000000
              (replicate 256 zero_gate) example_intr_function_pointers
              example_idt_entry ∅
              ltac:(simpl; lia) ltac:(simpl; lia) eq_refl eq_refl)
    as (idt_entry' & ifp' & heap' & base & Hinit & _ & Hbase & _ & _ & _ & _
        & Hgp & _ & _ & _ & _ & Hgates).
  exists idt_entry', ifp', heap'. split; [exact Hinit |].
  split; [exact Hgp |].
  destruct (Hgates 13%nat ltac:(lia)) as (g & target & Hg & Ht & Hoff).
  exists g, target. split; [exact Hg |]. split; [exact Ht |].
  vm_compute in Hbase. injection Hbase as <-. exact Hoff.
Defined.

(** X19: after a successful [kkm_idt_init] every CPU slot holds
    [KKM_INVALID_ID], and [kkm_idt_get_desc] hands out the descriptor the
    platform reported as the native one and, as the guest one, a
    descriptor of the same size at the address [kkm_mmu_get_idt_va]
    gave. *)
Theorem idt_init_descriptors (NR_CPUS : nat) (KKM_INVALID_ID : Z)
    (e : Idt.env) (p v a : Z) (mem0 : list gate_struct)
    (intr_function_pointers : list Z) (heap : gset Z) :
  Idt.intr_code_len e < Idt.KKM_KX_INTR_CODE_SIZE e ->
  Idt.entry_code_len e < Idt.KKM_KX_ENTRY_CODE_SIZE e ->
  exists t ifp',
    kkm_idt_init NR_CPUS KKM_INVALID_ID e (AllocOk p v a) mem0
      intr_function_pointers heap
      = (0, t, ifp',
         heap ∪ page_range v (Idt.KKM_IDT_ALLOCATION_PAGES e))
    /\ n_entries t = Z.of_nat NR_CPUS
    /\ (forall cpu : nat, (cpu < NR_CPUS)%nat ->
          kkm_idt_get_id cpu t = Some KKM_INVALID_ID)
    /\ kkm_idt_get_desc (idt_entry t)
         = (Idt.stored_idt e,
            mk_desc_ptr (desc_size (Idt.stored_idt e)) (Idt.kkm_mmu_get_idt_va e)).
Proof.
  intros Hintr Hentry.
  unfold kkm_idt_init, Idt.kkm_idt_descr_init.
  replace (Idt.KKM_KX_INTR_CODE_SIZE e <=? Idt.intr_code_len e) with false
    by zb_false.
  replace (Idt.KKM_KX_ENTRY_CODE_SIZE e <=? Idt.entry_code_len e) with false
    by zb_false.
  cbn -[Idt.fill_gates Idt.replace_non_standard_handlers page_range union
        replicate].
  do 2 eexists. split; [reflexivity |].
  split; [reflexivity |]. split.
  - intros cpu Hcpu. unfold kkm_idt_get_id. cbn [desc_entries].
    apply lookup_replicate. split; [reflexivity | exact Hcpu].
  - unfold kkm_idt_get_desc. cbn [idt_entry Idt.native_idt_desc Idt.guest_idt_desc
                                  desc_size desc_address].
    destruct (Idt.stored_idt e). reflexivity.
Qed.

Lemma idt_init_descriptors_witness :
  exists t ifp',
    kkm_idt_init 8 0xFFFFFFFFFFFFFFFF example_env example_alloc
      (replicate 256 zero_gate) example_intr_function_pointers ∅
      = (0, t, ifp',
         ∅ ∪ page_range 0xffff888001000000
               (Idt.KKM_IDT_ALLOCATION_PAGES example_env))
    /\ kkm_idt_get_id 7 t = Some 0xFFFFFFFFFFFFFFFF
    /\ snd (kkm_idt_get_desc (idt_entry t))
         = mk_desc_ptr 0xfff 0xffffff0000000000.
Proof.
  destruct (idt_init_descriptors 8 0xFFFFFFFFFFFFFFFF example_env
              0xffffea0000040000 0xffff888001000000 0x1000000
              (replicate 256 zero_gate) example_intr_function_pointers ∅
              ltac:(simpl; lia) ltac:(simpl; lia))
    as (t & ifp' & Hinit & _ & Hid & Hdesc).
  exists t, ifp'. split; [exact Hinit |].
  split; [apply Hid; lia |]. rewrite Hdesc. reflexivity.
Defined.

(** X20: [kkm_idt_get_id] reads back what [kkm_idt_set_id] stored for that
    CPU, the slots of the other CPUs are not disturbed, and the IDT entry
    itself is not touched. *)
Theorem idt_set_get_id (cpu : nat) (id : Z) (t : kkm_idt_global) :
  (cpu < length (desc_entries t))%nat ->
  kkm_idt_get_id cpu (kkm_idt_set_id cpu id t) = Some id
  /\ (forall other : nat, other <> cpu ->
        kkm_idt_get_id other (kkm_idt_set_id cpu id t) = kkm_idt_get_id other t)
  /\ idt_entry (kkm_idt_set_id cpu id t) = idt_entry t
  /\ length (desc_entries (kkm_idt_set_id cpu id t)) = length (desc_entries t).
Proof.
  intros Hcpu. unfold kkm_idt_get_id, kkm_idt_set_id. cbn [desc_entries idt_entry].
  split; [apply list_lookup_insert_eq; exact Hcpu |].
  split; [intros other Hne; apply list_lookup_insert_ne; lia |].
  split; [reflexivity | apply length_insert].
Qed.

Lemma idt_set_get_id_witness :
  kkm_idt_get_id 2
    (kkm_idt_set_id 2 0x77
       (mk_kkm_idt 4 example_installed_idt_entry (replicate 4 0xFFFFFFFFFFFFFFFF)))
  = Some 0x77.
Proof.
  apply (proj1 (idt_set_get_id 2 0x77
                  (mk_kkm_idt 4 example_installed_idt_entry
                     (replicate 4 0xFFFFFFFFFFFFFFFF))
                  ltac:(simpl; lia))).
Defined.



(** ** Relocation of the entry code *)

Lemma store_bytes_outside (bs : list Z) :
  forall (a : Z) (mem : Z -> Z) (x : Z),
    x < a \/ a + Z.of_nat (length bs) <= x ->
    store_bytes a bs mem x = mem x.
Proof.
  induction bs as [| b tl IH]; intros a mem x Hx; cbn [store_bytes].
  - reflexivity.
  - cbn [length] in Hx. rewrite IH by lia. unfold store8.
    destruct (Z.eqb_spec x a); [lia | reflexivity].
Qed.

Lemma load_bytes_store_bytes (bs : list Z) :
  forall (a : Z) (mem : Z -> Z),
    load_bytes (store_bytes a bs mem) a (length bs) = bs.
Proof.
  induction bs as [| b tl IH]; intros a mem; cbn [store_bytes length load_bytes].
  - reflexivity.
  - rewrite IH. rewrite store_bytes_outside by lia.
    unfold store8. rewrite Z.eqb_refl. reflexivity.
Qed.

Lemma store_bytes_app (l1 l2 : list Z) :
  forall (a : Z) (mem : Z -> Z),
    store_bytes a (l1 ++ l2) mem
      = store_bytes (a + Z.of_nat (length l1)) l2 (store_bytes a l1 mem).
Proof.
  induction l1 as [| b tl IH]; intros a mem; cbn [app store_bytes length].
  - rewrite Z.add_0_r. reflexivity.
  - rewrite IH. f_equal. lia.
Qed.

Lemma load_bytes_app (mem : Z -> Z) (n1 n2 : nat) :
  forall a,
    load_bytes mem a (n1 + n2)
      = load_bytes mem a n1 ++ load_bytes mem (a + Z.of_nat n1) n2.
Proof.
  induction n1 as [| n1 IH]; intros a; cbn [load_bytes Nat.add app].
  - rewrite Z.add_0_r. reflexivity.
  - rewrite IH. do 3 f_equal. lia.
Qed.

Lemma length_load_bytes (mem : Z -> Z) (n : nat) :
  forall a, length (load_bytes mem a n) = n.
Proof.
  induction n as [| n IH]; intros a; cbn [load_bytes length].
  - reflexivity.
  - rewrite IH. reflexivity.
Qed.

Lemma wrap32_wrap64 (x : Z) : wrap32 (wrap64 x) = wrap32 x.
Proof.
  unfold wrap32, wrap64. apply Z.mod_mod_divide.
  exists (2 ^ 32). reflexivity.
Qed.

Lemma wrap32_sign_extend (x d : Z) :
  wrap32 (x + sign_extend32 d) = wrap32 (x + d).
Proof.
  unfold sign_extend32, wrap32. destruct (d <? 2 ^ 31); [reflexivity |].
  replace (x + (d - 2 ^ 32)) with (x + d + (-1) * 2 ^ 32) by lia.
  apply Z_mod_plus_full.
Qed.

(** What a rewritten instruction looks like: the new opcode bytes followed
    by the low 32 bits of the absolute address. *)
Lemma patched_bytes (opcode : list Z) (a target : Z) (mem : Z -> Z) :
  let mem' := store32 (a + Z.of_nat (length opcode)) target
                (store_bytes a opcode mem) in
  load_bytes mem' a (length opcode + 4) = opcode ++ le_bytes32 (wrap32 target)
  /\ le_combine (load_bytes mem' (a + Z.of_nat (length opcode)) 4) = wrap32 target
  /\ forall x, x < a \/ a + Z.of_nat (length opcode) + 4 <= x -> mem' x = mem x.
Proof.
  intros mem'. subst mem'. unfold store32.
  rewrite <- store_bytes_app.
  assert (Hlen : length (opcode ++ le_bytes32 (wrap32 target))
                 = (length opcode + 4)%nat)
    by (rewrite length_app; reflexivity).
  split; [rewrite <- Hlen; apply load_bytes_store_bytes |].
  split.
  - pose proof (load_bytes_store_bytes (opcode ++ le_bytes32 (wrap32 target)) a mem)
      as H.
    rewrite Hlen, load_bytes_app in H.
    apply (f_equal (drop (length opcode))) in H.
    rewrite (drop_app_length' (load_bytes _ a (length opcode)))
      in H by (symmetry; apply length_load_bytes).
    rewrite drop_app_length in H. rewrite H.
    apply le_combine_bytes32. unfold wrap32. apply Z.mod_pos_bound. lia.
  - intros x Hx. apply store_bytes_outside. rewrite Hlen. lia.
Qed.

(** Bring the three facts of [patched_bytes] into the form of the
    statements below. *)
Ltac finish_patch Hb Hd Ho :=
  cbn [length Nat.add] in Hb, Hd, Ho;
  rewrite wrap32_wrap64 in Hb, Hd;
  split; [exact Hb |];
  split; [rewrite wrap32_sign_extend; exact Hd |];
  intros x Hx; apply Ho; lia.

(** X22: when the instruction at label 1 (label 2) is the
    instruction-pointer-relative [mov] the code looks for, its copy is
    rewritten into the absolute form: opcode bytes [65 48 89 24 25]
    ([65 48 8b 24 25]) followed by a 32-bit little-endian value that is
    the low 32 bits of the address the original operand named (the
    address after the 8-byte instruction plus its sign-extended
    displacement).  Nine bytes are written, one more than the instruction
    replaced; no other byte of memory changes. *)
Theorem patch_mov_rewritten (r : relocation) (mem : Z -> Z) :
  (let l := rel_syscall_label_1 r in
   mem l = 0x65 -> mem (l + 1) = 0x48 -> mem (l + 2) = 0x89 -> mem (l + 3) = 0x25 ->
   let mem' := patch_label_1 r mem in
   load_bytes mem' (relocated r l) 9
     = [0x65; 0x48; 0x89; 0x24; 0x25]
         ++ le_bytes32 (wrap32 (l + 8 + load32 mem (l + 4)))
   /\ le_combine (load_bytes mem' (relocated r l + 5) 4)
        = wrap32 (l + 8 + sign_extend32 (load32 mem (l + 4)))
   /\ forall x, x < relocated r l \/ relocated r l + 9 <= x -> mem' x = mem x)
  /\ (let l := rel_syscall_label_2 r in
   mem l = 0x65 -> mem (l + 1) = 0x48 -> mem (l + 2) = 0x8b -> mem (l + 3) = 0x25 ->
   let mem' := patch_label_2 r mem in
   load_bytes mem' (relocated r l) 9
     = [0x65; 0x48; 0x8b; 0x24; 0x25]
         ++ le_bytes32 (wrap32 (l + 8 + load32 mem (l + 4)))
   /\ le_combine (load_bytes mem' (relocated r l + 5) 4)
        = wrap32 (l + 8 + sign_extend32 (load32 mem (l + 4)))
   /\ forall x, x < relocated r l \/ relocated r l + 9 <= x -> mem' x = mem x).
Proof.
  split; intros l H0 H1 H2 H3 mem'; subst mem' l.
  - unfold patch_label_1. rewrite H0, H1, H2, H3. cbn [Z.eqb Pos.eqb andb].
    destruct (patched_bytes [0x65; 0x48; 0x89; 0x24; 0x25]
                (relocated r (rel_syscall_label_1 r))
                (wrap64 (rel_syscall_label_1 r + 8
                         + load32 mem (rel_syscall_label_1 r + 4))) mem)
      as (Hb & Hd & Ho).
    finish_patch Hb Hd Ho.
  - unfold patch_label_2. rewrite H0, H1, H2, H3. cbn [Z.eqb Pos.eqb andb].
    destruct (patched_bytes [0x65; 0x48; 0x8b; 0x24; 0x25]
                (relocated r (rel_syscall_label_2 r))
                (wrap64 (rel_syscall_label_2 r + 8
                         + load32 mem (rel_syscall_label_2 r + 4))) mem)
      as (Hb & Hd & Ho).
    finish_patch Hb Hd Ho.
Qed.

Lemma patch_mov_rewritten_witness :
  load_bytes (patch_label_1 example_relocation example_text) 0x9800 9
    = [0x65; 0x48; 0x89; 0x24; 0x25]
        ++ le_bytes32 (wrap32 (0x1000 + 8 + load32 example_text (0x1000 + 4)))
  /\ le_combine (load_bytes (patch_label_2 example_relocation example_text)
                   (0x9810 + 5) 4)
     = wrap32 (0x1010 + 8 + sign_extend32 (load32 example_text (0x1010 + 4))).
Proof.
  split.
  - exact (proj1 (proj1 (patch_mov_rewritten example_relocation example_text)
                    eq_refl eq_refl eq_refl eq_refl)).
  - exact (proj1 (proj2 (proj2 (patch_mov_rewritten example_relocation example_text)
                           eq_refl eq_refl eq_refl eq_refl))).
Defined.

Example patch_label_2_negative_displacement :
  le_combine (load_bytes (patch_label_2 example_relocation example_text) 0x9815 4)
    = 0x1010.
Proof. reflexivity. Qed.

(** X23: the same for the [push] at label 3, whose 7 bytes
    [65 ff 35 disp32] become the 8 bytes [65 ff 34 25 abs32]. *)
Theorem patch_push_rewritten (r : relocation) (mem : Z -> Z) :
  let l := rel_syscall_label_3 r in
  mem l = 0x65 -> mem (l + 1) = 0xff -> mem (l + 2) = 0x35 ->
  let mem' := patch_label_3 r mem in
  load_bytes mem' (relocated r l) 8
    = [0x65; 0xff; 0x34; 0x25]
        ++ le_bytes32 (wrap32 (l + 7 + load32 mem (l + 3)))
  /\ le_combine (load_bytes mem' (relocated r l + 4) 4)
       = wrap32 (l + 7 + sign_extend32 (load32 mem (l + 3)))
  /\ forall x, x < relocated r l \/ relocated r l + 8 <= x -> mem' x = mem x.
Proof.
  intros l H0 H1 H2 mem'. subst mem' l.
  unfold patch_label_3. rewrite H0, H1, H2. cbn [Z.eqb Pos.eqb andb].
  destruct (patched_bytes [0x65; 0xff; 0x34; 0x25]
              (relocated r (rel_syscall_label_3 r))
              (wrap64 (rel_syscall_label_3 r + 7
                       + load32 mem (rel_syscall_label_3 r + 3))) mem)
    as (Hb & Hd & Ho).
  finish_patch Hb Hd Ho.
Qed.

Lemma patch_push_rewritten_witness :
  load_bytes (patch_label_3 example_relocation example_text) 0x9820 8
    = [0x65; 0xff; 0x34; 0x25]
        ++ le_bytes32 (wrap32 (0x1020 + 7 + load32 example_text (0x1020 + 3))).
Proof.
  exact (proj1 (patch_push_rewritten example_relocation example_text
                  eq_refl eq_refl eq_refl)).
Defined.

(** X24: an instruction that does not start with the expected bytes is
    left alone, silently: when none of the three labels carries its
    pattern the patching changes no byte at all. *)
Theorem patch_without_pattern (r : relocation) (mem : Z -> Z) :
  (mem (rel_syscall_label_1 r) <> 0x65
   \/ mem (rel_syscall_label_1 r + 1) <> 0x48
   \/ mem (rel_syscall_label_1 r + 2) <> 0x89
   \/ mem (rel_syscall_label_1 r + 3) <> 0x25) ->
  (mem (rel_syscall_label_2 r) <> 0x65
   \/ mem (rel_syscall_label_2 r + 1) <> 0x48
   \/ mem (rel_syscall_label_2 r + 2) <> 0x8b
   \/ mem (rel_syscall_label_2 r + 3) <> 0x25) ->
  (mem (rel_syscall_label_3 r) <> 0x65
   \/ mem (rel_syscall_label_3 r + 1) <> 0xff
   \/ mem (rel_syscall_label_3 r + 2) <> 0x35) ->
  patch_relocated_code r mem = mem.
Proof.
  intros H1 H2 H3. unfold patch_relocated_code.
  assert (E1 : patch_label_1 r mem = mem).
  { unfold patch_label_1.
    destruct (Z.eqb_spec (mem (rel_syscall_label_1 r)) 0x65),
      (Z.eqb_spec (mem (rel_syscall_label_1 r + 1)) 0x48),
      (Z.eqb_spec (mem (rel_syscall_label_1 r + 2)) 0x89),
      (Z.eqb_spec (mem (rel_syscall_label_1 r + 3)) 0x25);
      try reflexivity. tauto. }
  rewrite E1.
  assert (E2 : patch_label_2 r mem = mem).
  { unfold patch_label_2.
    destruct (Z.eqb_spec (mem (rel_syscall_label_2 r)) 0x65),
      (Z.eqb_spec (mem (rel_syscall_label_2 r + 1)) 0x48),
      (Z.eqb_spec (mem (rel_syscall_label_2 r + 2)) 0x8b),
      (Z.eqb_spec (mem (rel_syscall_label_2 r + 3)) 0x25);
      try reflexivity. tauto. }
  rewrite E2.
  unfold patch_label_3.
  destruct (Z.eqb_spec (mem (rel_syscall_label_3 r)) 0x65),
    (Z.eqb_spec (mem (rel_syscall_label_3 r + 1)) 0xff),
    (Z.eqb_spec (mem (rel_syscall_label_3 r + 2)) 0x35);
    try reflexivity. tauto.
Qed.

Lemma patch_without_pattern_witness :
  patch_relocated_code example_relocation (fun _ => 0x90) = (fun _ => 0x90).
Proof.
  apply patch_without_pattern; left; cbv beta; lia.
Defined.
